(** * v4l2ctl: the device facade, the enumeration walkers and device discovery

    A shallow embedding of [src/v4l2ctl/v4l2device.py].  Python objects are
    records, properties and methods are functions in a state-and-exception
    monad whose state holds the object together with the observable world
    (the kernel requests issued so far and what was written to standard
    output), generators are explicit state machines with a [next] function. *)

From Stdlib Require Import ZArith Lia String Ascii Bool.
From stdpp Require Import base list strings pretty.

Local Open Scope Z_scope.
Local Open Scope string_scope.

(** ** Exceptions *)

(** The exception classes this file raises or catches. *)
Inductive exn_class : Type :=
| cOSError
| cIoctlError
| cFeatureNotSupported
| cValueError
| cIndexError
| cKeyError
| cTypeError
| cException.

Definition exn_class_eqb (a b : exn_class) : bool :=
  match a, b with
  | cOSError, cOSError | cIoctlError, cIoctlError
  | cFeatureNotSupported, cFeatureNotSupported | cValueError, cValueError
  | cIndexError, cIndexError | cKeyError, cKeyError
  | cTypeError, cTypeError | cException, cException => true
  | _, _ => false
  end.

(** An exception object: the classes it is an instance of (its own class
    first) and the text [str(e)] renders. *)
Record exn : Type := mkExn { exn_classes : list exn_class; exn_str : string }.

(** [isinstance(e, c)], which is what an [except c] clause tests. *)
Definition isinstance (e : exn) (c : exn_class) : bool :=
  existsb (exn_class_eqb c) (exn_classes e).

(** [class FeatureNotSupported(Exception): pass] *)
Definition FeatureNotSupported (msg : string) : exn :=
  mkExn [cFeatureNotSupported; cException] msg.
Definition ValueError (msg : string) : exn := mkExn [cValueError; cException] msg.
Definition IndexError (msg : string) : exn := mkExn [cIndexError; cException] msg.
Definition KeyError (msg : string) : exn := mkExn [cKeyError; cException] msg.

(** [needle in hay] on strings. *)
Fixpoint str_contains (needle hay : string) : bool :=
  String.prefix needle hay
  || match hay with
     | EmptyString => false
     | String _ rest => str_contains needle rest
     end.

(** ** Results and the monad *)

Inductive result (A : Type) : Type :=
| Ok (a : A)
| Raise (e : exn).
Arguments Ok {A} a.
Arguments Raise {A} e.

(** A computation over a state [S] that returns or raises; the state reached
    when an exception is raised is kept (Python does not roll back). *)
Definition M (S A : Type) : Type := S -> result A * S.

Definition ret {S A} (a : A) : M S A := fun s => (Ok a, s).
Definition raise {S A} (e : exn) : M S A := fun s => (Raise e, s).
Definition bind {S A B} (m : M S A) (k : A -> M S B) : M S B :=
  fun s => match m s with
           | (Ok a, s') => k a s'
           | (Raise e, s') => (Raise e, s')
           end.
(** [try: m  except c as e: h e] (no [else] clause). *)
Definition try_except {S A} (m : M S A) (c : exn_class) (h : exn -> M S A) : M S A :=
  fun s => match m s with
           | (Ok a, s') => (Ok a, s')
           | (Raise e, s') => if isinstance e c then h e s' else (Raise e, s')
           end.
Definition get_state {S} : M S S := fun s => (Ok s, s).
Definition put_state {S} (s : S) : M S unit := fun _ => (Ok tt, s).
Definition lift_result {S A} (r : result A) : M S A := fun s => (r, s).

Declare Scope py_scope.
Delimit Scope py_scope with py.
Notation "x <- m ;; k" := (bind m (fun x => k))
  (at level 100, m at next level, right associativity) : py_scope.
Notation "m ;;; k" := (bind m (fun _ => k))
  (at level 100, right associativity) : py_scope.
Local Open Scope py_scope.

(** Pure steps that may raise (conversions, subscripts). *)
Definition rbind {A B} (r : result A) (k : A -> result B) : result B :=
  match r with
  | Ok a => k a
  | Raise e => Raise e
  end.

(** ** The enumerations of [v4l2interface] *)

(** Modelled from the spec: the enumeration V4l2BufferType is declared in
    v4l2interface, which is not among the sources.  The spec calls a buffer
    type a kernel-defined discriminator (capture, output, overlay, ... and
    their multiplanar variants); the members, their declaration order and
    their values are the kernel's [enum v4l2_buf_type], the names those the
    source uses.  It is an integer enumeration: the source hands members to
    the kernel requests as the [type] field, and a member compares equal to
    its integer value. *)
Inductive V4l2BufferType : Type :=
| VIDEO_CAPTURE
| VIDEO_OUTPUT
| VIDEO_OVERLAY
| VBI_CAPTURE
| VBI_OUTPUT
| SLICED_VBI_CAPTURE
| SLICED_VBI_OUTPUT
| VIDEO_OUTPUT_OVERLAY
| VIDEO_CAPTURE_MPLANE
| VIDEO_OUTPUT_MPLANE
| SDR_CAPTURE
| SDR_OUTPUT
| META_CAPTURE
| META_OUTPUT.

(** Iterating over the class ([for buftype in V4l2BufferType]) visits the
    members in declaration order. *)
Definition V4l2BufferType_members : list V4l2BufferType :=
  [VIDEO_CAPTURE; VIDEO_OUTPUT; VIDEO_OVERLAY; VBI_CAPTURE; VBI_OUTPUT;
   SLICED_VBI_CAPTURE; SLICED_VBI_OUTPUT; VIDEO_OUTPUT_OVERLAY;
   VIDEO_CAPTURE_MPLANE; VIDEO_OUTPUT_MPLANE; SDR_CAPTURE; SDR_OUTPUT;
   META_CAPTURE; META_OUTPUT].

(** [buftype.value] *)
Definition bt_value (b : V4l2BufferType) : Z :=
  match b with
  | VIDEO_CAPTURE => 1 | VIDEO_OUTPUT => 2 | VIDEO_OVERLAY => 3
  | VBI_CAPTURE => 4 | VBI_OUTPUT => 5
  | SLICED_VBI_CAPTURE => 6 | SLICED_VBI_OUTPUT => 7
  | VIDEO_OUTPUT_OVERLAY => 8
  | VIDEO_CAPTURE_MPLANE => 9 | VIDEO_OUTPUT_MPLANE => 10
  | SDR_CAPTURE => 11 | SDR_OUTPUT => 12
  | META_CAPTURE => 13 | META_OUTPUT => 14
  end.

(** [buftype.name] *)
Definition bt_name (b : V4l2BufferType) : string :=
  match b with
  | VIDEO_CAPTURE => "VIDEO_CAPTURE" | VIDEO_OUTPUT => "VIDEO_OUTPUT"
  | VIDEO_OVERLAY => "VIDEO_OVERLAY"
  | VBI_CAPTURE => "VBI_CAPTURE" | VBI_OUTPUT => "VBI_OUTPUT"
  | SLICED_VBI_CAPTURE => "SLICED_VBI_CAPTURE"
  | SLICED_VBI_OUTPUT => "SLICED_VBI_OUTPUT"
  | VIDEO_OUTPUT_OVERLAY => "VIDEO_OUTPUT_OVERLAY"
  | VIDEO_CAPTURE_MPLANE => "VIDEO_CAPTURE_MPLANE"
  | VIDEO_OUTPUT_MPLANE => "VIDEO_OUTPUT_MPLANE"
  | SDR_CAPTURE => "SDR_CAPTURE" | SDR_OUTPUT => "SDR_OUTPUT"
  | META_CAPTURE => "META_CAPTURE" | META_OUTPUT => "META_OUTPUT"
  end.

(** Modelled from the spec: the flag enumeration V4l2Capabilities is declared
    in v4l2interface, which is not among the sources.  The spec describes a
    capability set as a set of named flags decoded from a 32-bit integer
    whose membership is tested by bit-masking; a set is the integer itself,
    the named flags and their bits are the kernel's [V4L2_CAP_*]. *)
Definition V4l2Capabilities : Type := Z.

Definition V4l2Capabilities_flags : list (string * V4l2Capabilities) :=
  [("VIDEO_CAPTURE", 0x00000001); ("VIDEO_OUTPUT", 0x00000002);
   ("VIDEO_OVERLAY", 0x00000004); ("VBI_CAPTURE", 0x00000010);
   ("VBI_OUTPUT", 0x00000020); ("SLICED_VBI_CAPTURE", 0x00000040);
   ("SLICED_VBI_OUTPUT", 0x00000080); ("RDS_CAPTURE", 0x00000100);
   ("VIDEO_OUTPUT_OVERLAY", 0x00000200); ("HW_FREQ_SEEK", 0x00000400);
   ("RDS_OUTPUT", 0x00000800); ("VIDEO_CAPTURE_MPLANE", 0x00001000);
   ("VIDEO_OUTPUT_MPLANE", 0x00002000); ("VIDEO_M2M_MPLANE", 0x00004000);
   ("VIDEO_M2M", 0x00008000); ("TUNER", 0x00010000); ("AUDIO", 0x00020000);
   ("RADIO", 0x00040000); ("MODULATOR", 0x00080000);
   ("SDR_CAPTURE", 0x00100000); ("EXT_PIX_FORMAT", 0x00200000);
   ("SDR_OUTPUT", 0x00400000); ("META_CAPTURE", 0x00800000);
   ("READWRITE", 0x01000000); ("ASYNCIO", 0x02000000);
   ("STREAMING", 0x04000000); ("META_OUTPUT", 0x08000000);
   ("TOUCH", 0x10000000); ("DEVICE_CAPS", 0x80000000)].

(** [V4l2Capabilities.DEVICE_CAPS] *)
Definition DEVICE_CAPS : V4l2Capabilities := 0x80000000.

(** [V4l2Capabilities(value)]: a flag enumeration takes any integer. *)
Definition V4l2Capabilities_call (value : Z) : V4l2Capabilities := value.

(** [V4l2Capabilities[name]]: lookup of a flag by name, [KeyError] when the
    class has no member of that name. *)
Definition V4l2Capabilities_getitem (name : string) : result V4l2Capabilities :=
  match find (fun entry => String.eqb (fst entry) name) V4l2Capabilities_flags with
  | Some entry => Ok (snd entry)
  | None => Raise (KeyError name)
  end.

(** [flag in caps] on flag sets: every bit of [flag] is set in [caps]. *)
Definition cap_contains (caps flag : V4l2Capabilities) : bool :=
  Z.eqb (Z.land flag caps) flag.

(** ** Python values a caller can assign to [buffer_type] *)

Inductive pyval : Type :=
| PyInt (n : Z)
| PyBufferType (b : V4l2BufferType)
| PyStr (s : string).

(** The integer a value compares as, if it is one. *)
Definition py_int (v : pyval) : option Z :=
  match v with
  | PyInt n => Some n
  | PyBufferType b => Some (bt_value b)
  | PyStr _ => None
  end.

(** [a == b]: integers and enumeration members compare by integer value. *)
Definition py_eq (a b : pyval) : bool :=
  match a, b with
  | PyStr s, PyStr t => String.eqb s t
  | _, _ => match py_int a, py_int b with
            | Some x, Some y => Z.eqb x y
            | _, _ => false
            end
  end.

(** [v in l] for a list of buffer types. *)
Definition py_in (v : pyval) (l : list V4l2BufferType) : bool :=
  existsb (fun b => py_eq v (PyBufferType b)) l.

(** [str(v)] *)
Definition py_str (v : pyval) : string :=
  match v with
  | PyInt n => pretty n
  | PyBufferType b => "V4l2BufferType." ++ bt_name b
  | PyStr s => s
  end.

(** [V4l2BufferType(value)]: a member is returned as it is, any other value
    is looked up among the members' values; [ValueError] when none has it. *)
Definition V4l2BufferType_call (value : pyval) : result V4l2BufferType :=
  match value with
  | PyBufferType b => Ok b
  | _ => match find (fun b => py_eq value (PyBufferType b)) V4l2BufferType_members with
         | Some b => Ok b
         | None => Raise (ValueError (py_str value ++ " is not a valid V4l2BufferType"))
         end
  end.

(** [repr] and [str] of lists, as [print] and the messages render them. *)
Definition join_comma (l : list string) : string :=
  match l with
  | [] => ""
  | x :: xs => fold_left (fun acc y => acc ++ ", " ++ y) xs x
  end.
Definition repr_list (l : list string) : string := "[" ++ join_comma l ++ "]".
Definition repr_str (s : string) : string := "'" ++ s ++ "'".
Definition repr_buffer_type (b : V4l2BufferType) : string :=
  "<V4l2BufferType." ++ bt_name b ++ ": " ++ pretty (bt_value b) ++ ">".

(** [l[i]] *)
Definition list_getitem {A} (l : list A) (i : nat) : result A :=
  match l !! i with
  | Some x => Ok x
  | None => Raise (IndexError "list index out of range")
  end.

(** [[x for x in l if p x]] where the condition may raise. *)
Fixpoint comprehension_if {A} (p : A -> result bool) (l : list A) : result (list A) :=
  match l with
  | [] => Ok []
  | x :: xs =>
      rbind (p x) (fun keep =>
      rbind (comprehension_if p xs) (fun rest =>
      Ok (if keep then x :: rest else rest)))
  end.

(** ** The collaborators outside this file *)

(** The kernel structures the source reads fields of. *)
Record v4l2_capability : Type := {
  driver : string;
  card : string;
  bus_info : string;
  version : Z;
  capabilities : Z;
  device_caps : Z
}.

Record v4l2_fmtdesc : Type := {
  pixelformat : Z;
  description : string;
  flags : Z
}.

(** The value types of [v4l2types], the remaining kernel structures and the
    codec of [bytes.decode()]; the source only passes them on. *)
Record Foreign : Type := {
  v4l2_frmsizeenum : Type;
  v4l2_cropcap : Type;
  v4l2_rect : Type;
  V4l2Rectangle : Type;
  V4l2CroppingCapabilities : Type;
  V4l2Rectangle_from_v4l2 : v4l2_rect -> V4l2Rectangle;
  V4l2Rectangle_to_v4l2 : V4l2Rectangle -> v4l2_rect;
  V4l2CroppingCapabilities_from_v4l2 : v4l2_cropcap -> V4l2CroppingCapabilities;
  bytes_decode : string -> result string
}.

(** [struct v4l2_crop]: the source reads its field [c]. *)
Record v4l2_crop (F : Foreign) : Type := { c : v4l2_rect F }.
Arguments c {F} _.

(** A request made to the transport ([VidIocOps]) of a device file. *)
Inductive request (F : Foreign) : Type :=
| ReqOpen (device : string)
| ReqQueryCap (device : string)
| ReqEnumFmt (device : string) (index : Z) (type : pyval)
| ReqEnumFrameSizes (device : string) (index : Z) (pixel_format : Z)
| ReqCropCap (device : string) (type : pyval)
| ReqGetCrop (device : string) (type : pyval)
| ReqSetCrop (device : string) (type : pyval) (rect : v4l2_rect F).
Arguments ReqOpen {F} _.
Arguments ReqQueryCap {F} _.
Arguments ReqEnumFmt {F} _ _ _.
Arguments ReqEnumFrameSizes {F} _ _ _.
Arguments ReqCropCap {F} _ _.
Arguments ReqGetCrop {F} _ _.
Arguments ReqSetCrop {F} _ _ _.

(** What the transport answers to each request: the structure the kernel
    filled in, or the exception the transport raises. *)
Record Kernel (F : Foreign) : Type := {
  k_open : string -> result unit;
  k_query_cap : string -> result v4l2_capability;
  k_enum_fmt : string -> Z -> pyval -> result v4l2_fmtdesc;
  k_enum_frame_sizes : string -> Z -> Z -> result (v4l2_frmsizeenum F);
  k_crop_cap : string -> pyval -> result (v4l2_cropcap F);
  k_get_crop : string -> pyval -> result (v4l2_crop F);
  k_set_crop : string -> pyval -> v4l2_rect F -> result unit
}.
Arguments k_open {F} _ _.
Arguments k_query_cap {F} _ _.
Arguments k_enum_fmt {F} _ _ _ _.
Arguments k_enum_frame_sizes {F} _ _ _ _.
Arguments k_crop_cap {F} _ _ _.
Arguments k_get_crop {F} _ _ _.
Arguments k_set_crop {F} _ _ _ _.

(** The device-file directory as [pathlib] shows it. *)
Record FileSystem : Type := {
  glob : string -> string -> list string;
  is_symlink : string -> bool;
  resolve : string -> string
}.

(** The observable world: the requests issued so far, oldest first, and the
    lines written to standard output. *)
Record world (F : Foreign) : Type := mkWorld {
  calls : list (request F);
  stdout : list string
}.
Arguments mkWorld {F} _ _.
Arguments calls {F} _.
Arguments stdout {F} _.

Definition world0 {F} : world F := mkWorld [] [].

(** [print(text)] *)
Definition print {F} (text : string) : M (world F) unit :=
  fun w => (Ok tt, mkWorld (calls w) (stdout w ++ [text])).

(** Issue a request: it is recorded, and the transport's answer returned. *)
Definition ioctl {F A} (req : request F) (answer : result A) : M (world F) A :=
  fun w => (answer, mkWorld (calls w ++ [req]) (stdout w)).

(** ** The objects *)

(** [VidIocOps]: the transport object of one device file. *)
Record VidIocOps : Type := { ioc_device : string }.

(** [V4l2Format] *)
Record V4l2Format : Type := {
  fmt_ioc_ops : VidIocOps;
  _fmt_desc : v4l2_fmtdesc
}.

(** Modelled from the spec: V4l2FrameSize is declared in v4l2frame, which is
    not among the sources.  The spec describes a frame size as an immutable
    value produced by enumerating a format's sizes; the object holds the two
    constructor arguments. *)
Record V4l2FrameSize (F : Foreign) : Type := {
  frm_ioc_ops : VidIocOps;
  frm_size : v4l2_frmsizeenum F
}.
Arguments Build_V4l2FrameSize {F} _ _.

(** [V4l2Device] *)
Record V4l2Device : Type := {
  _device : string;
  _ioc_ops : VidIocOps;
  _driver : string;
  _name : string;
  _bus : string;
  _version : Z * Z * Z;
  _physical_caps : V4l2Capabilities;
  _device_caps : V4l2Capabilities;
  _supported_buffer_types : list V4l2BufferType;
  _buffer_type : pyval
}.

(** The argument of the constructor: an [int] or a path. *)
Inductive device_arg : Type :=
| DevInt (n : Z)
| DevPath (path : string).

(** [self._buffer_type = value] *)
Definition with_buffer_type (self : V4l2Device) (value : pyval) : V4l2Device :=
  {| _device := _device self; _ioc_ops := _ioc_ops self;
     _driver := _driver self; _name := _name self; _bus := _bus self;
     _version := _version self; _physical_caps := _physical_caps self;
     _device_caps := _device_caps self;
     _supported_buffer_types := _supported_buffer_types self;
     _buffer_type := value |}.

(** A generator of an enumeration walk: about to test the loop condition
    with [idx], or finished. *)
Inductive walk : Type :=
| Running (idx : Z)
| Finished.

(** [V4l2Device.cropping_buffer_types] *)
Definition cropping_buffer_types : list V4l2BufferType :=
  [VIDEO_CAPTURE; VIDEO_CAPTURE_MPLANE; VIDEO_OUTPUT; VIDEO_OUTPUT_MPLANE;
   VIDEO_OVERLAY].

(** [V4l2DeviceIterator._v4l2_device_prefixes] *)
Definition _v4l2_device_prefixes : list string :=
  ["video"; "radio"; "vbi"; "swradio"; "v4l-subdev"].

Section Operations.

Variable F : Foreign.
Variable K : Kernel F.

(** A method runs on the object and the world. *)
Definition method (A : Type) : Type := M (V4l2Device * world F) A.

Definition get_self : method V4l2Device := fun s => (Ok (fst s), s).
Definition set_self (self : V4l2Device) : method unit :=
  fun s => (Ok tt, (self, snd s)).
Definition in_world {A} (m : M (world F) A) : method A :=
  fun s => let (r, w) := m (snd s) in (r, (fst s, w)).

(** *** The transport object *)

(** Modelled from the spec: VidIocOps is declared in v4l2interface, which is
    not among the sources.  The spec has the transport perform the raw
    system call and raise an I/O failure on error; creating it opens the
    device file, and each method issues one request. *)
Definition VidIocOps_init (device : string) : M (world F) VidIocOps :=
  ioctl (ReqOpen device) (k_open K device) ;;;
  ret {| ioc_device := device |}.

Definition query_cap (ops : VidIocOps) : M (world F) v4l2_capability :=
  ioctl (ReqQueryCap (ioc_device ops)) (k_query_cap K (ioc_device ops)).

Definition enum_fmt (ops : VidIocOps) (index : Z) (type : pyval)
  : M (world F) v4l2_fmtdesc :=
  ioctl (ReqEnumFmt (ioc_device ops) index type)
        (k_enum_fmt K (ioc_device ops) index type).

Definition enum_frame_sizes (ops : VidIocOps) (index pixel_format : Z)
  : M (world F) (v4l2_frmsizeenum F) :=
  ioctl (ReqEnumFrameSizes (ioc_device ops) index pixel_format)
        (k_enum_frame_sizes K (ioc_device ops) index pixel_format).

Definition crop_cap (ops : VidIocOps) (type : pyval) : M (world F) (v4l2_cropcap F) :=
  ioctl (ReqCropCap (ioc_device ops) type) (k_crop_cap K (ioc_device ops) type).

Definition get_crop (ops : VidIocOps) (type : pyval) : M (world F) (v4l2_crop F) :=
  ioctl (ReqGetCrop (ioc_device ops) type) (k_get_crop K (ioc_device ops) type).

Definition set_crop (ops : VidIocOps) (type : pyval) (rect : v4l2_rect F)
  : M (world F) unit :=
  ioctl (ReqSetCrop (ioc_device ops) type rect)
        (k_set_crop K (ioc_device ops) type rect).

(** *** Generators *)

(** [itertools.islice(gen, n)] drained into a list: at most [n] items are
    pulled with [next]; the generator is returned as it is left. *)
Fixpoint take_items {A} (next : walk -> M (world F) (option A * walk))
    (n : nat) (g : walk) : M (world F) (list A * walk) :=
  match n with
  | O => ret ([], g)
  | S n' =>
      step <- next g ;;
      match step with
      | (None, g') => ret ([], g')
      | (Some item, g') =>
          more <- take_items next n' g' ;;
          ret (item :: fst more, snd more)
      end
  end.

(** [V4l2Format.sizes]: one [next] of the generator. *)
Definition sizes_next (self : V4l2Format) (g : walk)
  : M (world F) (option (V4l2FrameSize F) * walk) :=
  match g with
  | Finished => ret (None, Finished)
  | Running fr_idx =>
      if (fr_idx <? 2 ^ 32)%Z then
        answer <- try_except
                    (frm_size <- enum_frame_sizes (fmt_ioc_ops self) fr_idx
                                   (pixelformat (_fmt_desc self)) ;;
                     ret (Some frm_size))
                    cOSError (fun _ => ret None) ;;
        match answer with
        | None => ret (None, Finished)
        | Some frm_size =>
            ret (Some (Build_V4l2FrameSize (fmt_ioc_ops self) frm_size),
                 Running (fr_idx + 1))
        end
      else ret (None, Finished)
  end.

(** [V4l2Device.iter_buffer_formats]: one [next] of the generator. *)
Definition iter_buffer_formats_next (self : V4l2Device) (buffer_type : pyval)
    (g : walk) : M (world F) (option V4l2Format * walk) :=
  match g with
  | Finished => ret (None, Finished)
  | Running idx =>
      if (idx <? 2 ^ 32)%Z then
        answer <- try_except
                    (fmt_desc <- enum_fmt (_ioc_ops self) idx buffer_type ;;
                     ret (Some fmt_desc))
                    cOSError (fun _ => ret None) ;;
        match answer with
        | None => ret (None, Finished)
        | Some fmt_desc =>
            ret (Some {| fmt_ioc_ops := _ioc_ops self; _fmt_desc := fmt_desc |},
                 Running (idx + 1))
        end
      else ret (None, Finished)
  end.

(** *** [V4l2Device] *)

(** [V4l2Device.__init__] *)
Definition V4l2Device_init (device : device_arg) : M (world F) V4l2Device :=
  let device := match device with
                | DevInt n => "/dev/video" ++ pretty n
                | DevPath path => path
                end in
  ioc_ops <- VidIocOps_init device ;;
  caps <- query_cap ioc_ops ;;
  driver_ <- lift_result (bytes_decode F (driver caps)) ;;
  name_ <- lift_result (bytes_decode F (card caps)) ;;
  bus_ <- lift_result (bytes_decode F (bus_info caps)) ;;
  let version_ := (Z.shiftr (Z.land (version caps) 0xFF0000) 16,
                   Z.shiftr (Z.land (version caps) 0x00FF00) 8,
                   Z.land (version caps) 0x0000FF) in
  let physical_caps := V4l2Capabilities_call (capabilities caps) in
  let device_caps_ := if cap_contains physical_caps DEVICE_CAPS
                      then V4l2Capabilities_call (device_caps caps)
                      else physical_caps in
  supported <- lift_result
                 (comprehension_if
                    (fun buftype =>
                       rbind (V4l2Capabilities_getitem (bt_name buftype))
                             (fun flag => Ok (cap_contains device_caps_ flag)))
                    V4l2BufferType_members) ;;
  print (repr_list (map repr_buffer_type supported)) ;;;
  first <- lift_result (list_getitem supported 0) ;;
  ret {| _device := device; _ioc_ops := ioc_ops;
         _driver := driver_; _name := name_; _bus := bus_;
         _version := version_; _physical_caps := physical_caps;
         _device_caps := device_caps_;
         _supported_buffer_types := supported;
         _buffer_type := PyBufferType first |}.

(** The read-only properties. *)
Definition name : method string := self <- get_self ;; ret (_name self).
Definition device : method string := self <- get_self ;; ret (_device self).
Definition driver_name : method string := self <- get_self ;; ret (_driver self).
Definition bus : method string := self <- get_self ;; ret (_bus self).
Definition version_tuple : method (Z * Z * Z) :=
  self <- get_self ;; ret (_version self).
Definition version_string : method string :=
  self <- get_self ;;
  let '(major, minor, patch) := _version self in
  ret (pretty major ++ "." ++ pretty minor ++ "." ++ pretty patch).
Definition capabilities_prop : method V4l2Capabilities :=
  self <- get_self ;; ret (_device_caps self).
Definition physical_capabilities : method V4l2Capabilities :=
  self <- get_self ;; ret (_physical_caps self).
Definition supported_buffer_types : method (list V4l2BufferType) :=
  self <- get_self ;; ret (_supported_buffer_types self).

(** The [buffer_type] property: getter and setter. *)
Definition buffer_type : method pyval :=
  self <- get_self ;; ret (_buffer_type self).

Definition buffer_type_set (value : pyval) : method unit :=
  member <- lift_result (V4l2BufferType_call value) ;;
  supported <- supported_buffer_types ;;
  if negb (py_in (PyBufferType member) supported) then
    names <- supported_buffer_types ;;
    raise (ValueError ("This device supports only the following buffer"
                       ++ " types: " ++ repr_list (map (fun b => repr_str (bt_name b)) names)))
  else
    self <- get_self ;;
    set_self (with_buffer_type self value).

(** The [cropping_capabilities] property. *)
Definition cropping_capabilities : method (V4l2CroppingCapabilities F) :=
  selected <- buffer_type ;;
  if negb (py_in selected cropping_buffer_types) then
    selected' <- buffer_type ;;
    raise (FeatureNotSupported
             ("Cropping is not supported for " ++ py_str selected'
              ++ ". Supported buffer types: "
              ++ repr_list (map (fun b => repr_str (bt_name b)) cropping_buffer_types)))
  else
    self <- get_self ;;
    type <- buffer_type ;;
    crop_caps <- in_world (crop_cap (_ioc_ops self) type) ;;
    ret (V4l2CroppingCapabilities_from_v4l2 F crop_caps).

(** The [formats] property: a fresh generator for the selected buffer type;
    [formats_take n] pulls at most [n] formats from it. *)
Definition formats_take (n : nat) : method (list V4l2Format * walk) :=
  self <- get_self ;;
  type <- buffer_type ;;
  in_world (take_items (iter_buffer_formats_next self type) n (Running 0)).

(** The [cropping_rectangle] property: getter and setter. *)
Definition cropping_rectangle : method (V4l2Rectangle F) :=
  self <- get_self ;;
  cropping <- try_except
                (in_world (get_crop (_ioc_ops self) (_buffer_type self)))
                cIoctlError
                (fun e => if str_contains "Errno 22" (exn_str e)
                          then raise (FeatureNotSupported "Cropping is not supported")
                          else raise e) ;;
  ret (V4l2Rectangle_from_v4l2 F (c cropping)).

Definition cropping_rectangle_set (rectangle : V4l2Rectangle F) : method unit :=
  self <- get_self ;;
  try_except
    (in_world (set_crop (_ioc_ops self) (_buffer_type self)
                 (V4l2Rectangle_to_v4l2 F rectangle)))
    cIoctlError
    (fun e => if str_contains "Errno 25" (exn_str e)
              then raise (FeatureNotSupported "Cropping is not supported")
              else ret tt).

(** *** Sequences of operations on one facade *)

Inductive operation : Type :=
| OpName | OpDevice | OpDriver | OpBus | OpVersion | OpVersionTuple
| OpCapabilities | OpPhysicalCapabilities
| OpCroppingCapabilities
| OpIterBufferFormats (type : pyval) (n : nat)
| OpFormats (n : nat)
| OpSupportedBufferTypes
| OpBufferType
| OpSetBufferType (value : pyval)
| OpCroppingRectangle
| OpSetCroppingRectangle (rectangle : V4l2Rectangle F).

Definition discard {A} (m : method A) : method unit := m ;;; ret tt.

Definition perform (op : operation) : method unit :=
  match op with
  | OpName => discard name
  | OpDevice => discard device
  | OpDriver => discard driver_name
  | OpBus => discard bus
  | OpVersion => discard version_string
  | OpVersionTuple => discard version_tuple
  | OpCapabilities => discard capabilities_prop
  | OpPhysicalCapabilities => discard physical_capabilities
  | OpCroppingCapabilities => discard cropping_capabilities
  | OpIterBufferFormats type n =>
      self <- get_self ;;
      discard (in_world (take_items (iter_buffer_formats_next self type) n (Running 0)))
  | OpFormats n => discard (formats_take n)
  | OpSupportedBufferTypes => discard supported_buffer_types
  | OpBufferType => discard buffer_type
  | OpSetBufferType value => buffer_type_set value
  | OpCroppingRectangle => discard cropping_rectangle
  | OpSetCroppingRectangle rectangle => cropping_rectangle_set rectangle
  end.

(** The object and the world after a caller performed the operations in
    turn, going on whether an operation returned or raised. *)
Definition perform_all (ops : list operation) (s : V4l2Device * world F)
  : V4l2Device * world F :=
  fold_left (fun s op => snd (perform op s)) ops s.

End Operations.

Section Discovery.

Variable F : Foreign.
Variable K : Kernel F.
Variable FS : FileSystem.

(** [enumerate(l)], counting from [start]. *)
Fixpoint enumerate_from {A} (start : nat) (l : list A) : list (nat * A) :=
  match l with
  | [] => []
  | x :: xs => (start, x) :: enumerate_from (S start) xs
  end.

(** [path in dev_list] *)
Definition path_in (path : string) (dev_list : list string) : bool :=
  existsb (String.eqb path) dev_list.

(** [del l[i]], which raises out of range. *)
Definition list_delitem {A} (l : list A) (i : nat) : result (list A) :=
  if (i <? length l)%nat then Ok (delete i l)
  else Raise (IndexError "list assignment index out of range").

(** The entry is a link whose target is collected too. *)
Definition redundant_link (dev_list : list string) (dev : string) : bool :=
  is_symlink FS dev && path_in (resolve FS dev) dev_list.

(** The first loop of the link-skipping branch: the indices to remove. *)
Definition find_redundant_links (dev_list : list string) : list nat :=
  fold_left (fun to_remove entry =>
               if redundant_link dev_list (snd entry)
               then (to_remove ++ [fst entry])%list
               else to_remove)
            (enumerate_from 0 dev_list) [].

(** The second loop: [for dev_idx in reversed(to_remove): del dev_list[dev_idx]]. *)
Definition remove_links (dev_list : list string) (to_remove : list nat)
  : result (list string) :=
  fold_left (fun acc dev_idx => rbind acc (fun l => list_delitem l dev_idx))
            (rev to_remove) (Ok dev_list).

(** The paths collected from the prefixes, in prefix order. *)
Definition collect_devices : list string :=
  fold_left (fun dev_list prefix => (dev_list ++ glob FS "/dev" (prefix ++ "*"))%list)
            _v4l2_device_prefixes [].

(** The paths [__iter__] goes on to open. *)
Definition candidate_devices (skip_links : bool) : result (list string) :=
  let dev_list := collect_devices in
  if skip_links
  then remove_links dev_list (find_redundant_links dev_list)
  else Ok dev_list.

(** The last loop: construct a facade per path, skipping those that raise
    an [OSError]. *)
Fixpoint construct_devices (dev_list : list string) : M (world F) (list V4l2Device) :=
  match dev_list with
  | [] => ret []
  | dev :: rest =>
      built <- try_except
                 (dev_instance <- V4l2Device_init F K (DevPath dev) ;;
                  ret (Some dev_instance))
                 cOSError (fun _ => ret None) ;;
      others <- construct_devices rest ;;
      ret (match built with
           | Some dev_instance => dev_instance :: others
           | None => others
           end)
  end.

(** [list(V4l2DeviceIterator(skip_links))]: everything [__iter__] yields. *)
Definition V4l2DeviceIterator_iter (skip_links : bool) : M (world F) (list V4l2Device) :=
  dev_list <- lift_result (candidate_devices skip_links) ;;
  construct_devices dev_list.

End Discovery.

(** ** A concrete host *)

Module Host.

(** Rectangles as (left, top, width, height), decoded field by field; byte
    strings that are plain ASCII. *)
Definition foreign : Foreign :=
  {| v4l2_frmsizeenum := Z * Z;
     v4l2_cropcap := Z * Z * Z * Z;
     v4l2_rect := Z * Z * Z * Z;
     V4l2Rectangle := Z * Z * Z * Z;
     V4l2CroppingCapabilities := Z * Z * Z * Z;
     V4l2Rectangle_from_v4l2 := fun r => r;
     V4l2Rectangle_to_v4l2 := fun r => r;
     V4l2CroppingCapabilities_from_v4l2 := fun r => r;
     bytes_decode := fun b => Ok b |}.

(** [OSError(errno, strerror)] and the transport's [IoctlError], which
    renders the same way. *)
Definition OSError (errno : Z) (strerror : string) : exn :=
  mkExn [cOSError; cException] ("[Errno " ++ pretty errno ++ "] " ++ strerror).
Definition IoctlError (errno : Z) (strerror : string) : exn :=
  mkExn [cIoctlError; cOSError; cException]
        ("[Errno " ++ pretty errno ++ "] " ++ strerror).

Definition EINVAL : Z := 22.
Definition EIO : Z := 5.
Definition ENOTTY : Z := 25.

(** A capture device: the physical capabilities are VIDEO_CAPTURE, STREAMING
    and DEVICE_CAPS, the device capabilities VIDEO_CAPTURE; two formats; two
    sizes per format; no cropping rectangle to read, and a failing write. *)
Definition webcam_caps : v4l2_capability :=
  {| driver := "uvcvideo"; card := "Webcam"; bus_info := "usb-0000:00:14.0-1";
     version := 0x050F00; capabilities := 0x84000001; device_caps := 0x00000001 |}.

Definition webcam_enum_fmt (dev : string) (index : Z) (type : pyval)
  : result v4l2_fmtdesc :=
  if (index <? 2)%Z
  then Ok {| pixelformat := 0x56595559 + index; description := "YUYV"; flags := 0 |}
  else Raise (IoctlError EINVAL "Invalid argument").

Definition webcam_enum_frame_sizes (dev : string) (index pixel_format : Z)
  : result (Z * Z) :=
  if (index <? 2)%Z then Ok (640 * (index + 1), 480 * (index + 1))%Z
  else Raise (IoctlError EINVAL "Invalid argument").

Definition webcam : Kernel foreign :=
  Build_Kernel foreign
    (fun dev => if String.eqb dev "/dev/video0" then Ok tt
                else Raise (OSError 2 "No such file or directory"))
    (fun _ => Ok webcam_caps)
    webcam_enum_fmt
    webcam_enum_frame_sizes
    (fun _ _ => Ok (0, 0, 640, 480))
    (fun _ _ => Raise (IoctlError EINVAL "Invalid argument"))
    (fun _ _ _ => Raise (IoctlError EIO "Input/output error")).

(** The same device when the enumeration queries fail with an I/O error at
    once. *)
Definition unplugged : Kernel foreign :=
  Build_Kernel foreign
    (k_open webcam)
    (k_query_cap webcam)
    (fun _ _ _ => Raise (OSError EIO "Input/output error"))
    (fun _ _ _ => Raise (OSError EIO "Input/output error"))
    (k_crop_cap webcam)
    (k_get_crop webcam)
    (k_set_crop webcam).

(** A device whose driver does not report device capabilities: the physical
    set is VIDEO_CAPTURE, VIDEO_OUTPUT and STREAMING, without DEVICE_CAPS. *)
Definition legacy_caps : v4l2_capability :=
  {| driver := "bttv"; card := "Grabber"; bus_info := "PCI:0000:05:00.0";
     version := 0x040E00; capabilities := 0x04000003; device_caps := 0 |}.

Definition legacy : Kernel foreign :=
  Build_Kernel foreign
    (k_open webcam)
    (fun _ => Ok legacy_caps)
    webcam_enum_fmt
    webcam_enum_frame_sizes
    (k_crop_cap webcam)
    (k_get_crop webcam)
    (k_set_crop webcam).

(** A radio tuner: TUNER, RADIO and DEVICE_CAPS, no buffer type at all. *)
Definition tuner_caps : v4l2_capability :=
  {| driver := "radio-si470x"; card := "FM Radio"; bus_info := "usb-0000:00:14.0-2";
     version := 0x050F00; capabilities := 0x80050000; device_caps := 0x00050000 |}.

Definition tuner : Kernel foreign :=
  Build_Kernel foreign
    (k_open webcam)
    (fun _ => Ok tuner_caps)
    webcam_enum_fmt
    webcam_enum_frame_sizes
    (k_crop_cap webcam)
    (k_get_crop webcam)
    (k_set_crop webcam).

(** A capture device with cropping: the rectangle can be read for any
    type and written for VIDEO_CAPTURE; for another type the driver answers
    the write with ENOTTY. *)
Definition studio_get_crop (dev : string) (type : pyval) : result (v4l2_crop foreign) :=
  Ok (Build_v4l2_crop foreign (0, 0, 640, 480)).

Definition studio_set_crop (dev : string) (type : pyval) (rect : Z * Z * Z * Z)
  : result unit :=
  if py_eq type (PyBufferType VIDEO_CAPTURE) then Ok tt
  else Raise (IoctlError ENOTTY "Inappropriate ioctl for device").

Definition studio : Kernel foreign :=
  Build_Kernel foreign
    (k_open webcam)
    (fun _ => Ok legacy_caps)
    webcam_enum_fmt
    webcam_enum_frame_sizes
    (k_crop_cap webcam)
    studio_get_crop
    studio_set_crop.

(** A directory with a device file, a link to it, a link to a device file
    that no prefix matches, and a radio. *)
Definition studio_dir : FileSystem :=
  {| glob := fun dir pattern =>
       if String.eqb dir "/dev" && String.eqb pattern "video*"
       then ["/dev/video0"; "/dev/video1"; "/dev/video2"]
       else if String.eqb dir "/dev" && String.eqb pattern "radio*"
            then ["/dev/radio0"] else [];
     is_symlink := fun path =>
       String.eqb path "/dev/video1" || String.eqb path "/dev/video2";
     resolve := fun path =>
       if String.eqb path "/dev/video1" then "/dev/video0"
       else if String.eqb path "/dev/video2" then "/dev/media0" else path |}.

(** [/dev/video0] is a device file and [/dev/video1] a link to it. *)
Definition dev_dir : FileSystem :=
  {| glob := fun dir pattern =>
       if String.eqb dir "/dev" && String.eqb pattern "video*"
       then ["/dev/video0"; "/dev/video1"] else [];
     is_symlink := fun path => String.eqb path "/dev/video1";
     resolve := fun path =>
       if String.eqb path "/dev/video1" then "/dev/video0" else path |}.

(** The facade of [/dev/video0] as the constructor leaves it. *)
Definition video0 : V4l2Device :=
  {| _device := "/dev/video0"; _ioc_ops := {| ioc_device := "/dev/video0" |};
     _driver := "uvcvideo"; _name := "Webcam"; _bus := "usb-0000:00:14.0-1";
     _version := (5, 15, 0); _physical_caps := 0x84000001;
     _device_caps := 0x00000001;
     _supported_buffer_types := [VIDEO_CAPTURE];
     _buffer_type := PyBufferType VIDEO_CAPTURE |}.

(** The facade of the grabber as the constructor leaves it. *)
Definition grabber0 : V4l2Device :=
  {| _device := "/dev/video0"; _ioc_ops := {| ioc_device := "/dev/video0" |};
     _driver := "bttv"; _name := "Grabber"; _bus := "PCI:0000:05:00.0";
     _version := (4, 14, 0); _physical_caps := 0x04000003;
     _device_caps := 0x04000003;
     _supported_buffer_types := [VIDEO_CAPTURE; VIDEO_OUTPUT];
     _buffer_type := PyBufferType VIDEO_CAPTURE |}.

(** The world right after [V4l2Device(0)] in an empty world. *)
Definition world1 : world foreign :=
  mkWorld [ReqOpen "/dev/video0"; ReqQueryCap "/dev/video0"]
          ["[<V4l2BufferType.VIDEO_CAPTURE: 1>]"].

(** The YUYV format of [/dev/video0]. *)
Definition yuyv : V4l2Format :=
  {| fmt_ioc_ops := {| ioc_device := "/dev/video0" |};
     _fmt_desc := {| pixelformat := 0x56595559; description := "YUYV"; flags := 0 |} |}.

End Host.

(** ** Vocabulary of the statements *)

(** The capability flag that carries a buffer type's name. *)
Definition bt_flag (b : V4l2BufferType) : V4l2Capabilities :=
  match V4l2Capabilities_getitem (bt_name b) with
  | Ok flag => flag
  | Raise _ => 0
  end.

(** The selected buffer type is in the supported list, as [in] tests it. *)
Definition selection_supported (self : V4l2Device) : Prop :=
  py_in (_buffer_type self) (_supported_buffer_types self) = true.

(** [m] neither replaces nor changes the object it runs on. *)
Definition keeps_self {F A} (m : method F A) : Prop :=
  forall s, fst (snd (m s)) = fst s.

Definition result_map {A B} (f : A -> B) (r : result A) : result B :=
  match r with
  | Ok a => Ok (f a)
  | Raise e => Raise e
  end.

(** The path the constructor opens for its argument. *)
Definition device_path (device : device_arg) : string :=
  match device with
  | DevInt n => "/dev/video" ++ pretty n
  | DevPath path => path
  end.

(** The device-specific capability set of an answer to the capability
    query: the separate field when the physical set has the flag
    DEVICE_CAPS, the physical set otherwise. *)
Definition device_capability_set (caps : v4l2_capability) : V4l2Capabilities :=
  if cap_contains (V4l2Capabilities_call (capabilities caps)) DEVICE_CAPS
  then V4l2Capabilities_call (device_caps caps)
  else V4l2Capabilities_call (capabilities caps).

(** The world after the requests [reqs] were issued in it. *)
Definition issued {F} (w : world F) (reqs : list (request F)) : world F :=
  mkWorld (calls w ++ reqs) (stdout w).

(** The requests of a walk over [n] indices from [start] on. *)
Fixpoint requests_from {F} (req : Z -> request F) (start : Z) (n : nat)
  : list (request F) :=
  match n with
  | O => []
  | S n' => req start :: requests_from req (start + 1) n'
  end.

(** The loop the two generators share, over the request and the answer of
    the query at an index and the object made of an answer. *)
Definition walker_next {F A B} (req : Z -> request F) (answer : Z -> result A)
    (make : A -> B) (g : walk) : M (world F) (option B * walk) :=
  match g with
  | Finished => ret (None, Finished)
  | Running idx =>
      if (idx <? 2 ^ 32)%Z then
        got <- try_except (item <- ioctl (req idx) (answer idx) ;; ret (Some item))
                 cOSError (fun _ => ret None) ;;
        match got with
        | None => ret (None, Finished)
        | Some item => ret (Some (make item), Running (idx + 1))
        end
      else ret (None, Finished)
  end.

(** [m] writes nothing to standard output. *)
Definition quiet {F A} (m : M (world F) A) : Prop :=
  forall w, stdout (snd (m w)) = stdout w.

Definition keeps_stdout {F A} (m : method F A) : Prop :=
  forall s, stdout (snd (snd (m s))) = stdout (snd s).


(** The kernel's [KERNEL_VERSION(a, b, c)]. *)
Definition KERNEL_VERSION (a b c : Z) : Z :=
  Z.shiftl a 16 + Z.shiftl b 8 + c.

(** The paths of the open requests among [reqs], in order. *)
Fixpoint opened {F} (reqs : list (request F)) : list string :=
  match reqs with
  | [] => []
  | ReqOpen path :: rest => path :: opened rest
  | _ :: rest => opened rest
  end.

(** * Properties *)

(** ** Values and membership *)

Lemma bt_value_inj a b : bt_value a = bt_value b -> a = b.
Proof. destruct a, b; simpl; intros H; try reflexivity; discriminate H. Qed.

Lemma all_members b : In b V4l2BufferType_members.
Proof. destruct b; simpl; tauto. Qed.

Lemma bt_flag_getitem b : V4l2Capabilities_getitem (bt_name b) = Ok (bt_flag b).
Proof. destruct b; reflexivity. Qed.

Lemma py_eq_int v x b :
  py_int v = Some x -> py_eq v (PyBufferType b) = Z.eqb x (bt_value b).
Proof. destruct v; simpl; intros H; inversion H; subst; reflexivity. Qed.

Lemma py_eq_no_int v b : py_int v = None -> py_eq v (PyBufferType b) = false.
Proof. destruct v; simpl; intros H; try discriminate H; reflexivity. Qed.

Lemma py_in_int v x l :
  py_int v = Some x -> py_in v l = existsb (fun b => Z.eqb x (bt_value b)) l.
Proof.
  intros H. unfold py_in. induction l as [|b l IH]; simpl.
  - reflexivity.
  - rewrite (py_eq_int v x b H), IH. reflexivity.
Qed.

Lemma py_in_no_int v l : py_int v = None -> py_in v l = false.
Proof.
  intros H. unfold py_in. induction l as [|b l IH]; simpl.
  - reflexivity.
  - rewrite (py_eq_no_int v b H), IH. reflexivity.
Qed.

Lemma py_in_member b l : py_in (PyBufferType b) l = true <-> In b l.
Proof.
  rewrite (py_in_int _ (bt_value b)) by reflexivity.
  rewrite existsb_exists. split.
  - intros [b' [Hin Heq]]. apply Z.eqb_eq, bt_value_inj in Heq. congruence.
  - intros Hin. exists b. split; [assumption | apply Z.eqb_refl].
Qed.

(** A conversion that succeeds yields the member with the value's integer. *)
Lemma V4l2BufferType_call_ok v m :
  V4l2BufferType_call v = Ok m -> py_int v = Some (bt_value m).
Proof.
  destruct v as [n|b|s]; cbv beta iota delta [V4l2BufferType_call].
  - destruct (find _ V4l2BufferType_members) as [b|] eqn:Hfind; [|discriminate].
    intros H; inversion H; subst b.
    apply find_some in Hfind as [_ Heq]. simpl in Heq.
    apply Z.eqb_eq in Heq. simpl. congruence.
  - intros H; inversion H; reflexivity.
  - simpl. discriminate.
Qed.

(** A conversion fails with a [ValueError], and only for a value that is
    equal to no member. *)
Lemma V4l2BufferType_call_raise v e :
  V4l2BufferType_call v = Raise e ->
  isinstance e cValueError = true /\ forall l, py_in v l = false.
Proof.
  destruct v as [n|b|s]; cbv beta iota delta [V4l2BufferType_call].
  - destruct (find _ V4l2BufferType_members) as [b|] eqn:Hfind; [discriminate|].
    intros H; inversion H; subst e. split; [reflexivity|].
    intros l. rewrite (py_in_int _ n) by reflexivity.
    apply not_true_is_false. rewrite existsb_exists. intros [b [_ Heq]].
    pose proof (find_none _ _ Hfind b (all_members b)) as Hno.
    simpl in Hno. rewrite Heq in Hno. discriminate Hno.
  - discriminate.
  - simpl. intros H; inversion H; subst e. split; [reflexivity|].
    intros l. apply py_in_no_int. reflexivity.
Qed.

Lemma py_in_converted v m l :
  V4l2BufferType_call v = Ok m -> py_in (PyBufferType m) l = py_in v l.
Proof.
  intros H. apply V4l2BufferType_call_ok in H.
  rewrite (py_in_int _ _ l H). apply py_in_int. reflexivity.
Qed.

(** A selected value that is in the supported list denotes one of its
    members. *)
Lemma selection_supported_member self :
  selection_supported self ->
  exists m, V4l2BufferType_call (_buffer_type self) = Ok m
            /\ In m (_supported_buffer_types self).
Proof.
  unfold selection_supported. intros H.
  destruct (V4l2BufferType_call (_buffer_type self)) as [m|e] eqn:Hcall.
  - exists m. split; [reflexivity|].
    apply py_in_member. rewrite (py_in_converted _ _ _ Hcall). exact H.
  - apply V4l2BufferType_call_raise in Hcall as [_ Hout].
    rewrite Hout in H. discriminate H.
Qed.

(** ** The facade *)

Section Facade.

Variable F : Foreign.
Variable K : Kernel F.

(** *** Methods that leave the object alone *)

Lemma keeps_self_ret {A} (a : A) : keeps_self (F:=F) (ret a).
Proof. intros s. reflexivity. Qed.

Lemma keeps_self_raise {A} e : keeps_self (F:=F) (A:=A) (raise e).
Proof. intros s. reflexivity. Qed.

Lemma keeps_self_get_self : keeps_self (get_self F).
Proof. intros s. reflexivity. Qed.

Lemma keeps_self_lift_result {A} (r : result A) : keeps_self (F:=F) (lift_result r).
Proof. intros s. reflexivity. Qed.

Lemma keeps_self_in_world {A} (m : M (world F) A) : keeps_self (in_world F m).
Proof. intros [self w]. unfold in_world. simpl. destruct (m w). reflexivity. Qed.

Lemma keeps_self_bind {A B} (m : method F A) (k : A -> method F B) :
  keeps_self m -> (forall a, keeps_self (k a)) -> keeps_self (bind m k).
Proof.
  intros Hm Hk s. unfold bind. specialize (Hm s).
  destruct (m s) as [[a|e] s1]; simpl in *.
  - rewrite (Hk a s1). exact Hm.
  - exact Hm.
Qed.

Lemma keeps_self_try_except {A} (m : method F A) c (h : exn -> method F A) :
  keeps_self m -> (forall e, keeps_self (h e)) -> keeps_self (try_except m c h).
Proof.
  intros Hm Hh s. unfold try_except. specialize (Hm s).
  destruct (m s) as [[a|e] s1]; simpl in *.
  - exact Hm.
  - destruct (isinstance e c); simpl.
    + rewrite (Hh e s1). exact Hm.
    + exact Hm.
Qed.

Create HintDb facade.
#[local] Hint Resolve keeps_self_ret keeps_self_raise keeps_self_get_self
  keeps_self_lift_result keeps_self_in_world keeps_self_bind
  keeps_self_try_except : facade.

Ltac keeps_self_tac :=
  repeat first
    [ apply keeps_self_bind; [|intros ?]
    | apply keeps_self_try_except; [|intros ?]
    | match goal with
      | |- keeps_self (if ?b then _ else _) => destruct b
      | |- keeps_self (let '(_, _) := ?p in _) => destruct p
      end
    | solve [auto with facade] ].

Lemma keeps_self_cropping_capabilities : keeps_self (cropping_capabilities F K).
Proof. unfold cropping_capabilities, buffer_type. keeps_self_tac. Qed.

Lemma keeps_self_cropping_rectangle : keeps_self (cropping_rectangle F K).
Proof. unfold cropping_rectangle. keeps_self_tac. Qed.

Lemma keeps_self_cropping_rectangle_set r : keeps_self (cropping_rectangle_set F K r).
Proof. unfold cropping_rectangle_set. keeps_self_tac. Qed.

Lemma keeps_self_formats_take n : keeps_self (formats_take F K n).
Proof. unfold formats_take, buffer_type. keeps_self_tac. Qed.

(** Every operation but the assignment of [buffer_type] leaves the object as
    it is. *)
Lemma perform_keeps_self op :
  (forall value, op <> OpSetBufferType F value) -> keeps_self (perform F K op).
Proof.
  intros Hop.
  destruct op; try solve [exfalso; eapply Hop; reflexivity]; cbn [perform];
    try apply keeps_self_cropping_rectangle_set;
    unfold discard; apply keeps_self_bind; auto with facade;
    auto using keeps_self_cropping_capabilities, keeps_self_formats_take,
      keeps_self_cropping_rectangle;
    unfold name, device, driver_name, bus, version_string, version_tuple,
      capabilities_prop, physical_capabilities, supported_buffer_types,
      buffer_type;
    keeps_self_tac.
Qed.

(** *** Assigning [buffer_type] *)

(** The assignment either stores the value, when it is in the supported
    list, or raises a [ValueError] and changes nothing. *)
Lemma buffer_type_set_spec value self w :
  (py_in value (_supported_buffer_types self) = true
   /\ buffer_type_set F value (self, w)
      = (Ok tt, (with_buffer_type self value, w)))
  \/ (py_in value (_supported_buffer_types self) = false
      /\ exists e, isinstance e cValueError = true
                   /\ buffer_type_set F value (self, w) = (Raise e, (self, w))).
Proof.
  cbv beta iota delta [buffer_type_set bind lift_result supported_buffer_types
    get_self set_self ret raise fst snd].
  destruct (V4l2BufferType_call value) as [member|e] eqn:Hcall.
  - rewrite (py_in_converted _ _ (_supported_buffer_types self) Hcall).
    destruct (py_in value (_supported_buffer_types self)); cbv beta iota delta [negb].
    + left. split; reflexivity.
    + right. split; [reflexivity|]. eexists. split; [|reflexivity]. reflexivity.
  - apply V4l2BufferType_call_raise in Hcall as [Hcls Hout].
    right. split; [apply Hout|]. exists e. split; [exact Hcls|reflexivity].
Qed.

Lemma perform_preserves_selection op s :
  selection_supported (fst s) ->
  selection_supported (fst (snd (perform F K op s))).
Proof.
  intros Hinv.
  destruct op;
    try (rewrite perform_keeps_self; [exact Hinv | intros ? ?; discriminate]).
  destruct s as [self w]. cbn [perform].
  destruct (buffer_type_set_spec value self w) as [[Hin ->]|[_ [e [_ ->]]]].
  - exact Hin.
  - exact Hinv.
Qed.

Lemma perform_all_preserves_selection ops s :
  selection_supported (fst s) ->
  selection_supported (fst (perform_all F K ops s)).
Proof.
  revert s. induction ops as [|op ops IH]; intros s Hinv.
  - exact Hinv.
  - cbn [perform_all fold_left]. apply IH. apply perform_preserves_selection.
    exact Hinv.
Qed.

(** *** Construction *)

Lemma comprehension_supported (caps : V4l2Capabilities) l :
  comprehension_if
    (fun buftype => rbind (V4l2Capabilities_getitem (bt_name buftype))
                          (fun flag => Ok (cap_contains caps flag))) l
  = Ok (List.filter (fun b => cap_contains caps (bt_flag b)) l).
Proof.
  induction l as [|b l IH]; cbn [comprehension_if List.filter].
  - reflexivity.
  - rewrite bt_flag_getitem, IH. cbn [rbind].
    destruct (cap_contains caps (bt_flag b)); reflexivity.
Qed.

Lemma V4l2Device_init_ok device w self w' :
  V4l2Device_init F K device w = (Ok self, w') ->
  exists caps first,
    _device self = device_path device
    /\ k_query_cap K (_device self) = Ok caps
    /\ _physical_caps self = V4l2Capabilities_call (capabilities caps)
    /\ _device_caps self
       = (if cap_contains (_physical_caps self) DEVICE_CAPS
          then V4l2Capabilities_call (device_caps caps)
          else _physical_caps self)
    /\ _supported_buffer_types self
       = List.filter (fun b => cap_contains (_device_caps self) (bt_flag b))
                     V4l2BufferType_members
    /\ head (_supported_buffer_types self) = Some first
    /\ _buffer_type self = PyBufferType first
    /\ w' = mkWorld
              (calls w ++ [ReqOpen (_device self); ReqQueryCap (_device self)])
              (stdout w ++ [repr_list (map repr_buffer_type
                                          (_supported_buffer_types self))]).
Proof.
  unfold V4l2Device_init. fold (device_path device).
  cbv beta iota zeta delta [VidIocOps_init query_cap ioctl print bind ret
    lift_result ioc_device].
  destruct (k_open K (device_path device)) as [[]|?]; [|discriminate].
  destruct (k_query_cap K (device_path device)) as [caps|?] eqn:Hcaps;
    [|discriminate].
  destruct (bytes_decode F (driver caps)); [|discriminate].
  destruct (bytes_decode F (card caps)); [|discriminate].
  destruct (bytes_decode F (bus_info caps)); [|discriminate].
  rewrite comprehension_supported.
  unfold list_getitem.
  destruct (List.filter _ V4l2BufferType_members) as [|first rest] eqn:Hsup;
    cbv beta iota; [discriminate|].
  intros Hinit. inversion Hinit; subst self w'; clear Hinit.
  cbn [_device _physical_caps _device_caps _supported_buffer_types _buffer_type].
  exists caps, first. rewrite Hsup. repeat split; try reflexivity; try assumption.
  cbn [calls stdout]. rewrite <- app_assoc. reflexivity.
Qed.

(** C1. For every successfully constructed facade the selected buffer type
    is in the list of supported buffer types, as the membership test [in]
    decides it and as a member of the enumeration, right after construction
    and after any sequence of operations on the facade, whether they
    return or raise. *)
Theorem selection_always_supported device w self w' ops :
  V4l2Device_init F K device w = (Ok self, w') ->
  let final := fst (perform_all F K ops (self, w')) in
  selection_supported final
  /\ exists member, V4l2BufferType_call (_buffer_type final) = Ok member
                    /\ In member (_supported_buffer_types final).
Proof.
  intros Hinit final.
  assert (Hfinal : selection_supported final).
  { apply perform_all_preserves_selection. cbn [fst].
    apply V4l2Device_init_ok in Hinit
      as (caps & first & _ & _ & _ & _ & _ & Hhead & Hsel & _).
    unfold selection_supported. rewrite Hsel. apply py_in_member.
    destruct (_supported_buffer_types self) as [|b l]; [discriminate|].
    inversion Hhead; subst. left. reflexivity. }
  split; [exact Hfinal | apply selection_supported_member; exact Hfinal].
Qed.

(** C4. Assigning to [buffer_type] a value that is not in the supported list
    raises a [ValueError]; the object and the world are those before the
    attempt: the selection is unchanged and no request was issued. *)
Theorem buffer_type_set_unsupported value self w :
  py_in value (_supported_buffer_types self) = false ->
  exists e, isinstance e cValueError = true
            /\ buffer_type_set F value (self, w) = (Raise e, (self, w)).
Proof.
  intros Hout.
  destruct (buffer_type_set_spec value self w) as [[Hin _]|[_ H]].
  - rewrite Hin in Hout. discriminate Hout.
  - exact H.
Qed.

(** C10. A successful assignment stores the argument itself: the check is
    made on the value converted to the enumeration, and the getter then
    returns the value assigned, so after a plain integer was assigned it
    returns that integer and not a member of the enumeration. *)
Theorem buffer_type_set_stores_argument value self w s' :
  buffer_type_set F value (self, w) = (Ok tt, s') ->
  (exists member, V4l2BufferType_call value = Ok member
                  /\ py_in (PyBufferType member) (_supported_buffer_types self) = true)
  /\ buffer_type F s' = (Ok value, s')
  /\ (forall n, value = PyInt n ->
      forall b, fst (buffer_type F s') <> Ok (PyBufferType b)).
Proof.
  intros Hset.
  destruct (buffer_type_set_spec value self w) as [[Hin H]|[_ [e [_ H]]]];
    rewrite H in Hset; [|discriminate].
  inversion Hset; subst s'; clear Hset.
  assert (Hget : buffer_type F (with_buffer_type self value, w)
                 = (Ok value, (with_buffer_type self value, w))) by reflexivity.
  split; [|split].
  - destruct (V4l2BufferType_call value) as [member|e] eqn:Hcall.
    + exists member. split; [reflexivity|].
      rewrite (py_in_converted _ _ _ Hcall). exact Hin.
    + apply V4l2BufferType_call_raise in Hcall as [_ Hno].
      rewrite Hno in Hin. discriminate Hin.
  - exact Hget.
  - intros n -> b. rewrite Hget. cbn [fst]. discriminate.
Qed.


(** C5. When the device file opens and answers the capability query, the
    supported list is the list of the buffer types, in declaration order,
    whose capability flag is in the device-specific capability set: if that
    list is empty the constructor raises an [IndexError], otherwise it
    returns the facade with that list and its first entry selected. *)
Theorem supported_buffer_types_at_construction device w caps d1 d2 d3 :
  k_open K (device_path device) = Ok tt ->
  k_query_cap K (device_path device) = Ok caps ->
  bytes_decode F (driver caps) = Ok d1 ->
  bytes_decode F (card caps) = Ok d2 ->
  bytes_decode F (bus_info caps) = Ok d3 ->
  let supported :=
    List.filter (fun b => cap_contains (device_capability_set caps) (bt_flag b))
                V4l2BufferType_members in
  (supported = [] ->
   exists e w', V4l2Device_init F K device w = (Raise e, w')
                /\ isinstance e cIndexError = true)
  /\ (forall first rest, supported = first :: rest ->
      exists self w', V4l2Device_init F K device w = (Ok self, w')
                      /\ _device_caps self = device_capability_set caps
                      /\ _supported_buffer_types self = supported
                      /\ _buffer_type self = PyBufferType first).
Proof.
  intros Hopen Hcaps Hd1 Hd2 Hd3 supported.
  unfold V4l2Device_init. fold (device_path device).
  cbv beta iota zeta delta [VidIocOps_init query_cap ioctl print bind ret
    lift_result ioc_device].
  rewrite Hopen, Hcaps, Hd1, Hd2, Hd3, comprehension_supported.
  fold (device_capability_set caps). fold supported.
  split.
  - intros ->. cbv beta iota delta [list_getitem lookup list_lookup].
    eexists _, _. split; reflexivity.
  - intros first rest Hsup. rewrite Hsup.
    cbv beta iota delta [list_getitem lookup list_lookup].
    eexists _, _. split; [reflexivity|].
    cbn [_device_caps _supported_buffer_types _buffer_type].
    repeat split; reflexivity.
Qed.

(** C6. For a constructed facade, the physical capability set is the one
    the capability query reported; when it lacks the flag DEVICE_CAPS the
    device-specific set is that same set, and the two properties return
    equal values; when it has the flag, the device-specific set is decoded
    from the field [device_caps]. *)
Theorem device_caps_at_construction device w self w' :
  V4l2Device_init F K device w = (Ok self, w') ->
  exists caps,
    k_query_cap K (_device self) = Ok caps
    /\ _physical_caps self = V4l2Capabilities_call (capabilities caps)
    /\ (cap_contains (_physical_caps self) DEVICE_CAPS = false ->
        _device_caps self = _physical_caps self
        /\ forall w2, fst (capabilities_prop F (self, w2))
                      = fst (physical_capabilities F (self, w2)))
    /\ (cap_contains (_physical_caps self) DEVICE_CAPS = true ->
        _device_caps self = V4l2Capabilities_call (device_caps caps)).
Proof.
  intros Hinit.
  apply V4l2Device_init_ok in Hinit
    as (caps & first & _ & Hcaps & Hphys & Hdev & _).
  exists caps. split; [exact Hcaps|]. split; [exact Hphys|].
  split; intros Hflag; rewrite Hflag in Hdev.
  - split; [exact Hdev|]. intros w2.
    cbv beta iota delta [capabilities_prop physical_capabilities bind
      get_self ret fst snd].
    rewrite Hdev. reflexivity.
  - exact Hdev.
Qed.

(** C7. Reading [cropping_capabilities] while the selected buffer type is
    not one of VIDEO_CAPTURE, VIDEO_CAPTURE_MPLANE, VIDEO_OUTPUT,
    VIDEO_OUTPUT_MPLANE, VIDEO_OVERLAY raises [FeatureNotSupported] and
    issues no request; while it is one of them, exactly one crop-capability
    request is issued for the selected type, and what comes back is the
    decoded answer (or the error the transport raised). *)
Theorem cropping_capabilities_spec self w :
  (py_in (_buffer_type self) cropping_buffer_types = false ->
   exists e, isinstance e cFeatureNotSupported = true
             /\ cropping_capabilities F K (self, w) = (Raise e, (self, w)))
  /\ (py_in (_buffer_type self) cropping_buffer_types = true ->
      cropping_capabilities F K (self, w)
      = (result_map (V4l2CroppingCapabilities_from_v4l2 F)
           (k_crop_cap K (ioc_device (_ioc_ops self)) (_buffer_type self)),
         (self, issued w [ReqCropCap (ioc_device (_ioc_ops self))
                            (_buffer_type self)]))).
Proof.
  split; intros Hsel;
    cbv beta iota zeta delta [cropping_capabilities buffer_type bind get_self
      ret raise in_world crop_cap ioctl fst snd];
    rewrite Hsel; cbv beta iota delta [negb].
  - eexists. split; [|reflexivity]. reflexivity.
  - destruct (k_crop_cap K _ _); reflexivity.
Qed.

(** *** The cropping rectangle *)

(** Reading the rectangle: an [IoctlError] whose text has [Errno 22] becomes
    [FeatureNotSupported], any other exception is raised on. *)
Lemma cropping_rectangle_get_spec self w :
  cropping_rectangle F K (self, w)
  = (match k_get_crop K (ioc_device (_ioc_ops self)) (_buffer_type self) with
     | Ok cropping => Ok (V4l2Rectangle_from_v4l2 F (c cropping))
     | Raise e =>
         if isinstance e cIoctlError && str_contains "Errno 22" (exn_str e)
         then Raise (FeatureNotSupported "Cropping is not supported")
         else Raise e
     end,
     (self, issued w [ReqGetCrop (ioc_device (_ioc_ops self)) (_buffer_type self)])).
Proof.
  cbv beta iota zeta delta [cropping_rectangle bind get_self ret raise in_world
    try_except get_crop ioctl fst snd].
  destruct (k_get_crop K _ _) as [cropping|e]; [reflexivity|].
  destruct (isinstance e cIoctlError); [|reflexivity].
  destruct (str_contains "Errno 22" (exn_str e)); reflexivity.
Qed.

(** Writing the rectangle: an [IoctlError] whose text has [Errno 25] becomes
    [FeatureNotSupported]; every other [IoctlError] is dropped and the
    assignment returns as if it had succeeded. *)
Lemma cropping_rectangle_set_spec rectangle self w :
  let rect := V4l2Rectangle_to_v4l2 F rectangle in
  cropping_rectangle_set F K rectangle (self, w)
  = (match k_set_crop K (ioc_device (_ioc_ops self)) (_buffer_type self) rect with
     | Ok tt => Ok tt
     | Raise e =>
         if isinstance e cIoctlError
         then if str_contains "Errno 25" (exn_str e)
              then Raise (FeatureNotSupported "Cropping is not supported")
              else Ok tt
         else Raise e
     end,
     (self, issued w [ReqSetCrop (ioc_device (_ioc_ops self)) (_buffer_type self)
                        rect])).
Proof.
  cbv beta iota zeta delta [cropping_rectangle_set bind get_self ret raise
    in_world try_except set_crop ioctl fst snd].
  destruct (k_set_crop K _ _ _) as [[]|e]; [reflexivity|].
  destruct (isinstance e cIoctlError); [|reflexivity].
  destruct (str_contains "Errno 25" (exn_str e)); reflexivity.
Qed.

End Facade.

(** ** The enumeration walkers *)

Section Walkers.

Variable F : Foreign.
Variable K : Kernel F.

Lemma sizes_next_walker self :
  sizes_next F K self
  = walker_next
      (fun i => ReqEnumFrameSizes (ioc_device (fmt_ioc_ops self)) i
                  (pixelformat (_fmt_desc self)))
      (fun i => k_enum_frame_sizes K (ioc_device (fmt_ioc_ops self)) i
                  (pixelformat (_fmt_desc self)))
      (Build_V4l2FrameSize (fmt_ioc_ops self)).
Proof. reflexivity. Qed.

Lemma iter_buffer_formats_next_walker self type :
  iter_buffer_formats_next F K self type
  = walker_next
      (fun i => ReqEnumFmt (ioc_device (_ioc_ops self)) i type)
      (fun i => k_enum_fmt K (ioc_device (_ioc_ops self)) i type)
      (fun d => {| fmt_ioc_ops := _ioc_ops self; _fmt_desc := d |}).
Proof. reflexivity. Qed.

Section Walk.

Context {A B : Type}.
Variable req : Z -> request F.
Variable answer : Z -> result A.
Variable make : A -> B.

(** A query that succeeds yields its item and moves to the next index. *)
Lemma walker_next_item idx a w :
  idx < 2 ^ 32 -> answer idx = Ok a ->
  walker_next req answer make (Running idx) w
  = (Ok (Some (make a), Running (idx + 1)), issued w [req idx]).
Proof.
  intros Hidx Hans. apply Z.ltb_lt in Hidx.
  cbv beta iota delta [walker_next]. rewrite Hidx.
  cbv beta iota delta [bind try_except ioctl ret]. rewrite Hans. reflexivity.
Qed.

(** A query that raises ends the walk when the exception is an [OSError],
    and lets it through otherwise. *)
Lemma walker_next_raise idx e w :
  idx < 2 ^ 32 -> answer idx = Raise e ->
  walker_next req answer make (Running idx) w
  = (if isinstance e cOSError then Ok (None, Finished) else Raise e,
     issued w [req idx]).
Proof.
  intros Hidx Hans. apply Z.ltb_lt in Hidx.
  cbv beta iota delta [walker_next]. rewrite Hidx.
  cbv beta iota delta [bind try_except ioctl ret]. rewrite Hans.
  destruct (isinstance e cOSError); reflexivity.
Qed.

Lemma issued_issued (w : world F) l1 l2 : issued (issued w l1) l2 = issued w (l1 ++ l2).
Proof. unfold issued. cbn [calls stdout]. rewrite <- app_assoc. reflexivity. Qed.

(** Pulling more items than the queries grant: the items granted before the
    first failing index, then the end of the walk or the exception. *)
Lemma walker_take items :
  forall start e n w,
    start + Z.of_nat (length items) < 2 ^ 32 ->
    (forall i a, items !! i = Some a -> answer (start + Z.of_nat i) = Ok a) ->
    answer (start + Z.of_nat (length items)) = Raise e ->
    (length items < n)%nat ->
    take_items F (walker_next req answer make) n (Running start) w
    = (if isinstance e cOSError then Ok (map make items, Finished) else Raise e,
       issued w (requests_from req start (S (length items)))).
Proof.
  induction items as [|a items IH]; intros start e n w Hbound Hitems Hend Hn;
    (destruct n as [|n]; [cbn [length] in Hn; lia|]); cbn [take_items length].
  - cbn [length] in *. rewrite Z.add_0_r in Hend.
    unfold bind at 1. rewrite (walker_next_raise start e w) by (cbn in Hbound; lia || assumption).
    destruct (isinstance e cOSError); reflexivity.
  - assert (Ha : answer start = Ok a).
    { rewrite <- (Z.add_0_r start). apply (Hitems 0%nat a). reflexivity. }
    cbn [length] in Hbound, Hend, Hn.
    unfold bind at 1. rewrite (walker_next_item start a w) by (lia || assumption).
    unfold bind at 1.
    rewrite (IH (start + 1) e n (issued w [req start])).
    + rewrite issued_issued.
      destruct (isinstance e cOSError); reflexivity.
    + lia.
    + intros i a' Hi. replace (start + 1 + Z.of_nat i) with (start + Z.of_nat (S i)) by lia.
      apply Hitems. exact Hi.
    + replace (start + 1 + Z.of_nat (length items))
        with (start + Z.of_nat (S (length items))) by lia.
      exact Hend.
    + lia.
Qed.

End Walk.

(** C2, as amended. A walk queries the indices 0, 1, 2, ... and yields an
    item per answer until the query raises.  If the exception is an
    [OSError] of any kind, the invalid-argument one included, the sequence
    ends there and nothing is raised; an exception that is not an [OSError]
    reaches the caller.  This holds for the formats of a buffer type and for
    the frame sizes of a format. *)
Theorem enumeration_ends_on_OSError :
  (forall self type items e n w,
      Z.of_nat (length items) < 2 ^ 32 ->
      (forall i d, items !! i = Some d ->
                   k_enum_fmt K (ioc_device (_ioc_ops self)) (Z.of_nat i) type = Ok d) ->
      k_enum_fmt K (ioc_device (_ioc_ops self)) (Z.of_nat (length items)) type
      = Raise e ->
      (length items < n)%nat ->
      take_items F (iter_buffer_formats_next F K self type) n (Running 0) w
      = (if isinstance e cOSError
         then Ok (map (fun d => {| fmt_ioc_ops := _ioc_ops self; _fmt_desc := d |})
                      items, Finished)
         else Raise e,
         issued w (requests_from
                     (fun i => ReqEnumFmt (ioc_device (_ioc_ops self)) i type)
                     0 (S (length items)))))
  /\ (forall (self : V4l2Format) items e n w,
      Z.of_nat (length items) < 2 ^ 32 ->
      (forall i d, items !! i = Some d ->
                   k_enum_frame_sizes K (ioc_device (fmt_ioc_ops self)) (Z.of_nat i)
                     (pixelformat (_fmt_desc self)) = Ok d) ->
      k_enum_frame_sizes K (ioc_device (fmt_ioc_ops self))
        (Z.of_nat (length items)) (pixelformat (_fmt_desc self)) = Raise e ->
      (length items < n)%nat ->
      take_items F (sizes_next F K self) n (Running 0) w
      = (if isinstance e cOSError
         then Ok (map (Build_V4l2FrameSize (fmt_ioc_ops self)) items, Finished)
         else Raise e,
         issued w (requests_from
                     (fun i => ReqEnumFrameSizes (ioc_device (fmt_ioc_ops self)) i
                                 (pixelformat (_fmt_desc self)))
                     0 (S (length items))))).
Proof.
  split.
  - intros self type items e n w Hbound Hitems Hend Hn.
    rewrite iter_buffer_formats_next_walker.
    apply walker_take; assumption.
  - intros self items e n w Hbound Hitems Hend Hn.
    rewrite sizes_next_walker.
    apply walker_take; assumption.
Qed.

End Walkers.

(** ** Device discovery *)

Section DiscoveryProperties.

Variable FS : FileSystem.

Section Removal.

Context {A : Type}.
Variable P : A -> bool.

(** The indices, counted from [start], of the entries that satisfy [P]. *)
Lemma indices_found (l : list A) : forall start acc,
  fold_left (fun to_remove entry =>
               if P (snd entry) then (to_remove ++ [fst entry])%list else to_remove)
            (enumerate_from start l) acc
  = (acc ++ map fst (List.filter (fun entry => P (snd entry))
                       (enumerate_from start l)))%list.
Proof.
  induction l as [|x l IH]; intros start acc; cbn [enumerate_from fold_left List.filter].
  - cbn [map]. rewrite app_nil_r. reflexivity.
  - cbn [fst snd]. rewrite IH. destruct (P x); cbn [map fst].
    + rewrite <- app_assoc. reflexivity.
    + reflexivity.
Qed.

(** Deleting those indices, the largest first, never goes out of range and
    leaves the entries that do not satisfy [P], in their order. *)
Lemma delete_backward (suffix : list A) : forall prefix,
  fold_right (fun dev_idx acc => rbind acc (fun l => list_delitem l dev_idx))
             (Ok (prefix ++ suffix)%list)
             (map fst (List.filter (fun entry => P (snd entry))
                         (enumerate_from (length prefix) suffix)))
  = Ok (prefix ++ List.filter (fun x => negb (P x)) suffix)%list.
Proof.
  induction suffix as [|x suffix IH]; intros prefix.
  - reflexivity.
  - cbn [enumerate_from List.filter snd].
    specialize (IH (prefix ++ [x])%list).
    rewrite length_app in IH. cbn [length] in IH. rewrite Nat.add_1_r in IH.
    rewrite <- !app_assoc in IH. cbn [app] in IH.
    destruct (P x); cbn [map fst fold_right negb].
    + rewrite IH. cbn [rbind]. unfold list_delitem.
      assert (Hlt : (length prefix <? length (prefix ++ x :: List.filter (fun x => negb (P x)) suffix))%nat = true).
      { apply Nat.ltb_lt. rewrite length_app. cbn [length]. lia. }
      rewrite Hlt, delete_middle. reflexivity.
    + exact IH.
Qed.

Lemma filter_keeps_order (l : list A) : sublist (List.filter P l) l.
Proof.
  induction l as [|x l IH]; cbn [List.filter].
  - constructor.
  - destruct (P x); [apply sublist_skip | apply sublist_cons]; exact IH.
Qed.

End Removal.

Lemma remove_links_filter dev_list :
  remove_links dev_list (find_redundant_links FS dev_list)
  = Ok (List.filter (fun dev => negb (redundant_link FS dev_list dev)) dev_list).
Proof.
  unfold remove_links, find_redundant_links.
  rewrite (indices_found (redundant_link FS dev_list)). cbn [app].
  rewrite <- fold_left_rev_right, rev_involutive.
  apply (delete_backward (redundant_link FS dev_list) dev_list []).
Qed.

(** C8. With link-skipping, the paths that go on to be opened are the
    collected paths without every link whose resolved target is collected
    too, in the order they were collected: no removal goes out of range,
    such a link is never kept, and an entry that is not a link is never
    removed.  Without link-skipping the collected list is used as it is. *)
Theorem candidate_devices_spec skip_links :
  let dev_list := collect_devices FS in
  candidate_devices FS skip_links
  = Ok (if skip_links
        then List.filter (fun dev => negb (redundant_link FS dev_list dev)) dev_list
        else dev_list)
  /\ (forall kept, candidate_devices FS true = Ok kept ->
      sublist kept dev_list
      /\ (forall dev, In dev kept ->
                      is_symlink FS dev && path_in (resolve FS dev) dev_list = false)
      /\ (forall dev, In dev dev_list -> is_symlink FS dev = false -> In dev kept)).
Proof.
  intros dev_list. unfold candidate_devices. fold dev_list.
  rewrite remove_links_filter.
  split; [destruct skip_links; reflexivity|].
  intros kept Hkept. inversion Hkept; subst kept; clear Hkept.
  split; [|split].
  - apply filter_keeps_order.
  - intros dev Hin. apply filter_In in Hin as [_ Hkeep].
    apply negb_true_iff in Hkeep. exact Hkeep.
  - intros dev Hin Hlink. apply filter_In. split; [exact Hin|].
    unfold redundant_link. rewrite Hlink. reflexivity.
Qed.

End DiscoveryProperties.

(** ** The properties on the concrete host *)

(** A facade is constructed, a plain integer and two unsupported values are
    assigned, the cropping properties are read and written: the selection
    stays in the supported list. *)
Lemma selection_always_supported_witness :
  let ops := [OpSetBufferType Host.foreign (PyInt 1);
              OpSetBufferType Host.foreign (PyInt 2);
              OpSetBufferType Host.foreign (PyStr "capture");
              OpCroppingCapabilities Host.foreign;
              OpCroppingRectangle Host.foreign;
              OpSetCroppingRectangle Host.foreign (0, 0, 320, 240);
              OpFormats Host.foreign 3] in
  V4l2Device_init Host.foreign Host.webcam (DevInt 0) world0
  = (Ok Host.video0, Host.world1)
  /\ selection_supported
       (fst (perform_all Host.foreign Host.webcam ops (Host.video0, Host.world1)))
  /\ _buffer_type
       (fst (perform_all Host.foreign Host.webcam ops (Host.video0, Host.world1)))
     = PyInt 1.
Proof.
  intros ops. split; [reflexivity|]. split; [|reflexivity].
  apply (selection_always_supported Host.foreign Host.webcam (DevInt 0) world0
           Host.video0 Host.world1 ops).
  reflexivity.
Defined.

(** C2, as stated, fails: the format query of the unplugged device raises an
    [OSError] for an I/O error (errno 5, not the invalid-argument errno 22),
    and the walk over the formats ends without raising anything; so does the
    walk over the sizes of a format. *)
Lemma enumeration_hides_io_error :
  k_enum_fmt Host.unplugged "/dev/video0" 0 (PyBufferType VIDEO_CAPTURE)
  = Raise (Host.OSError Host.EIO "Input/output error")
  /\ Host.EIO <> Host.EINVAL
  /\ str_contains "Errno 22" (exn_str (Host.OSError Host.EIO "Input/output error"))
     = false
  /\ formats_take Host.foreign Host.unplugged 1 (Host.video0, world0)
     = (Ok ([], Finished),
        (Host.video0,
         issued world0 [ReqEnumFmt "/dev/video0" 0 (PyBufferType VIDEO_CAPTURE)]))
  /\ take_items Host.foreign (sizes_next Host.foreign Host.unplugged Host.yuyv)
       1 (Running 0) world0
     = (Ok ([], Finished),
        issued world0 [ReqEnumFrameSizes "/dev/video0" 0 0x56595559]).
Proof.
  split; [reflexivity|]. split; [discriminate|]. repeat split; reflexivity.
Qed.

(** The two formats of the webcam: the third query raises the
    invalid-argument error and the walk ends after two items. *)
Lemma enumeration_ends_on_OSError_witness :
  take_items Host.foreign
    (iter_buffer_formats_next Host.foreign Host.webcam Host.video0
       (PyBufferType VIDEO_CAPTURE)) 5 (Running 0) world0
  = (Ok ([Host.yuyv;
          {| fmt_ioc_ops := {| ioc_device := "/dev/video0" |};
             _fmt_desc := {| pixelformat := 0x5659555A; description := "YUYV";
                             flags := 0 |} |}], Finished),
     issued world0
       [ReqEnumFmt "/dev/video0" 0 (PyBufferType VIDEO_CAPTURE);
        ReqEnumFmt "/dev/video0" 1 (PyBufferType VIDEO_CAPTURE);
        ReqEnumFmt "/dev/video0" 2 (PyBufferType VIDEO_CAPTURE)]).
Proof.
  apply (proj1 (enumeration_ends_on_OSError Host.foreign Host.webcam)
           Host.video0 (PyBufferType VIDEO_CAPTURE)
           [{| pixelformat := 0x56595559; description := "YUYV"; flags := 0 |};
            {| pixelformat := 0x5659555A; description := "YUYV"; flags := 0 |}]
           (Host.IoctlError Host.EINVAL "Invalid argument") 5%nat world0).
  - reflexivity.
  - intros [|[|i]] d Hd; inversion Hd; reflexivity.
  - reflexivity.
  - cbn [length]. lia.
Defined.

(** C3 fails on the setter: the transport raises an [IoctlError] for an I/O
    error (errno 5) and the assignment of the rectangle returns normally. *)
Theorem cropping_rectangle_set_drops_io_error :
  k_set_crop Host.webcam "/dev/video0" (PyBufferType VIDEO_CAPTURE) (0, 0, 320, 240)
  = Raise (Host.IoctlError Host.EIO "Input/output error")
  /\ cropping_rectangle_set Host.foreign Host.webcam (0, 0, 320, 240)
       (Host.video0, world0)
     = (Ok tt,
        (Host.video0,
         issued world0 [ReqSetCrop (F:=Host.foreign) "/dev/video0"
                          (PyBufferType VIDEO_CAPTURE) (0, 0, 320, 240)])).
Proof. split; reflexivity. Qed.

(** The getter, on the same device, turns errno 22 into FeatureNotSupported. *)
Example cropping_rectangle_get_invalid_argument :
  cropping_rectangle Host.foreign Host.webcam (Host.video0, world0)
  = (Raise (FeatureNotSupported "Cropping is not supported"),
     (Host.video0,
      issued world0 [ReqGetCrop "/dev/video0" (PyBufferType VIDEO_CAPTURE)])).
Proof. reflexivity. Qed.

(** Assigning VIDEO_OUTPUT, as the integer 2, to the webcam. *)
Lemma buffer_type_set_unsupported_witness :
  exists e, isinstance e cValueError = true
            /\ buffer_type_set Host.foreign (PyInt 2) (Host.video0, Host.world1)
               = (Raise e, (Host.video0, Host.world1)).
Proof.
  apply (buffer_type_set_unsupported Host.foreign (PyInt 2) Host.video0 Host.world1).
  reflexivity.
Defined.

(** The webcam supports VIDEO_CAPTURE only, which is selected. *)
Lemma supported_buffer_types_at_construction_witness :
  exists self w',
    V4l2Device_init Host.foreign Host.webcam (DevInt 0) world0 = (Ok self, w')
    /\ _device_caps self = 1
    /\ _supported_buffer_types self = [VIDEO_CAPTURE]
    /\ _buffer_type self = PyBufferType VIDEO_CAPTURE.
Proof.
  apply (proj2 (supported_buffer_types_at_construction Host.foreign Host.webcam
                  (DevInt 0) world0 Host.webcam_caps
                  "uvcvideo" "Webcam" "usb-0000:00:14.0-1"
                  eq_refl eq_refl eq_refl eq_refl eq_refl)
           VIDEO_CAPTURE []).
  reflexivity.
Defined.

(** The tuner has no buffer type: its facade cannot be constructed. *)
Example tuner_has_no_buffer_type :
  V4l2Device_init Host.foreign Host.tuner (DevInt 0) world0
  = (Raise (IndexError "list index out of range"),
     mkWorld [ReqOpen "/dev/video0"; ReqQueryCap "/dev/video0"] ["[]"]).
Proof. reflexivity. Qed.

(** Without DEVICE_CAPS the two capability sets of the grabber are equal;
    its supported buffer types come from the physical set. *)
Lemma device_caps_at_construction_witness :
  fst (V4l2Device_init Host.foreign Host.legacy (DevInt 0) world0) = Ok Host.grabber0
  /\ cap_contains (_physical_caps Host.grabber0) DEVICE_CAPS = false
  /\ _device_caps Host.grabber0 = _physical_caps Host.grabber0
  /\ _supported_buffer_types Host.grabber0 = [VIDEO_CAPTURE; VIDEO_OUTPUT].
Proof.
  split; [reflexivity|]. split; [reflexivity|]. split; [|reflexivity].
  destruct (device_caps_at_construction Host.foreign Host.legacy (DevInt 0) world0
              Host.grabber0
              (snd (V4l2Device_init Host.foreign Host.legacy (DevInt 0) world0))
              eq_refl) as (caps & _ & _ & Habsent & _).
  apply Habsent. reflexivity.
Defined.

(** Cropping capabilities of the webcam with VIDEO_CAPTURE selected, and
    with VBI_CAPTURE selected as the plain integer 4. *)
Lemma cropping_capabilities_spec_witness :
  cropping_capabilities Host.foreign Host.webcam (Host.video0, world0)
  = (Ok (0, 0, 640, 480),
     (Host.video0,
      issued world0 [ReqCropCap "/dev/video0" (PyBufferType VIDEO_CAPTURE)]))
  /\ exists e,
      isinstance e cFeatureNotSupported = true
      /\ cropping_capabilities Host.foreign Host.webcam
           (with_buffer_type Host.video0 (PyInt 4), world0)
         = (Raise e, (with_buffer_type Host.video0 (PyInt 4), world0)).
Proof.
  split.
  - apply (proj2 (cropping_capabilities_spec Host.foreign Host.webcam
                    Host.video0 world0)).
    reflexivity.
  - apply (proj1 (cropping_capabilities_spec Host.foreign Host.webcam
                    (with_buffer_type Host.video0 (PyInt 4)) world0)).
    reflexivity.
Defined.

(** [/dev/video1] links to [/dev/video0]: skipped with link-skipping, kept
    without. *)
Lemma candidate_devices_spec_witness :
  candidate_devices Host.dev_dir true = Ok ["/dev/video0"]
  /\ candidate_devices Host.dev_dir false = Ok ["/dev/video0"; "/dev/video1"]
  /\ sublist ["/dev/video0"] (collect_devices Host.dev_dir).
Proof.
  split; [exact (proj1 (candidate_devices_spec Host.dev_dir true))|].
  split; [exact (proj1 (candidate_devices_spec Host.dev_dir false))|].
  apply (proj2 (candidate_devices_spec Host.dev_dir true) ["/dev/video0"]).
  reflexivity.
Defined.

(** C9 fails at construction: the constructor writes the list of supported
    buffer types to standard output. *)
Theorem construction_prints :
  stdout (world0 (F:=Host.foreign)) = []
  /\ stdout (snd (V4l2Device_init Host.foreign Host.webcam (DevInt 0) world0))
     = ["[<V4l2BufferType.VIDEO_CAPTURE: 1>]"].
Proof. split; reflexivity. Qed.

(** The integer 1 is assigned to the webcam and read back as it is. *)
Lemma buffer_type_set_stores_argument_witness :
  buffer_type_set Host.foreign (PyInt 1) (Host.video0, Host.world1)
  = (Ok tt, (with_buffer_type Host.video0 (PyInt 1), Host.world1))
  /\ buffer_type Host.foreign (with_buffer_type Host.video0 (PyInt 1), Host.world1)
     = (Ok (PyInt 1), (with_buffer_type Host.video0 (PyInt 1), Host.world1))
  /\ py_eq (PyInt 1) (PyBufferType VIDEO_CAPTURE) = true
  /\ PyInt 1 <> PyBufferType VIDEO_CAPTURE.
Proof.
  split; [reflexivity|]. split; [|split; [reflexivity|discriminate]].
  apply (buffer_type_set_stores_argument Host.foreign (PyInt 1) Host.video0
           Host.world1 (with_buffer_type Host.video0 (PyInt 1), Host.world1)).
  reflexivity.
Defined.

(** * Further properties *)

(** ** More on the enumeration walkers *)

Section WalkerFacts.

Variable F : Foreign.

Lemma issued_nil (w : world F) : issued w [] = w.
Proof. destruct w. unfold issued. cbn [calls stdout]. rewrite app_nil_r. reflexivity. Qed.

Lemma issued_app (w : world F) l1 l2 : issued (issued w l1) l2 = issued w (l1 ++ l2).
Proof. unfold issued. cbn [calls stdout]. rewrite <- app_assoc. reflexivity. Qed.

Section Generic.

Context {A B : Type}.
Variable req : Z -> request F.
Variable answer : Z -> result A.
Variable make : A -> B.

Let next := walker_next req answer make.

Lemma walker_next_limit idx w :
  2 ^ 32 <= idx -> next (Running idx) w = (Ok (None, Finished), w).
Proof.
  intros Hidx. apply Z.ltb_ge in Hidx.
  unfold next. cbv beta iota delta [walker_next]. rewrite Hidx. reflexivity.
Qed.

(** [next] signals the end only with a finished generator. *)
Lemma walker_next_end g w g' w' :
  next g w = (Ok (None, g'), w') -> g' = Finished.
Proof.
  unfold next. destruct g as [idx|]; cbv beta iota delta [walker_next].
  - destruct (idx <? 2 ^ 32)%Z.
    + cbv beta iota delta [bind try_except ioctl ret].
      destruct (answer idx) as [a|e]; cbv beta iota.
      * intros H; inversion H.
      * destruct (isinstance e cOSError); intros H; inversion H; reflexivity.
    + intros H; inversion H; reflexivity.
  - intros H; inversion H; reflexivity.
Qed.

Lemma take_items_finished n w :
  take_items F next n Finished w = (Ok ([], Finished), w).
Proof. destruct n; reflexivity. Qed.

Lemma take_items_limit n idx w :
  2 ^ 32 <= idx ->
  take_items F next (S n) (Running idx) w = (Ok ([], Finished), w).
Proof.
  intros Hidx. cbn [take_items]. unfold bind.
  rewrite (walker_next_limit idx w Hidx). reflexivity.
Qed.

(** Whatever the transport answers, a walk asks for consecutive indices,
    once each, and every item it yields is made of the answer at the item's
    position. *)
Lemma walker_take_safe n : forall start w,
  exists k,
    (k <= n)%nat
    /\ snd (take_items F next n (Running start) w)
       = issued w (requests_from req start k)
    /\ forall items g,
        fst (take_items F next n (Running start) w) = Ok (items, g) ->
        (length items <= k <= S (length items))%nat
        /\ forall i b, items !! i = Some b ->
                       exists a, answer (start + Z.of_nat i) = Ok a /\ b = make a.
Proof.
  induction n as [|n IH]; intros start w.
  - exists 0%nat. cbn [take_items requests_from]. unfold ret. cbn [fst snd].
    rewrite issued_nil. split; [lia|]. split; [reflexivity|].
    intros items g H; inversion H; subst. cbn [length]. split; [lia|].
    intros i b Hi. destruct i; discriminate Hi.
  - remember (take_items F next (S n) (Running start) w) as r eqn:Hr.
    cbn [take_items] in Hr. unfold bind at 1 in Hr.
    destruct (Z.lt_ge_cases start (2 ^ 32)) as [Hlt|Hge].
    + destruct (answer start) as [a|e] eqn:Hans.
      * unfold next at 1 in Hr.
        rewrite (walker_next_item F req answer make start a w Hlt Hans) in Hr.
        fold next in Hr. unfold bind at 1 in Hr.
        destruct (IH (start + 1) (issued w [req start])) as (k & Hk & Hw & Hitems).
        exists (S k). split; [lia|].
        destruct (take_items F next n (Running (start + 1)) (issued w [req start]))
          as [[[items' g']|e] w1]; cbn [fst snd] in *; unfold ret in Hr;
          subst r; cbn [fst snd requests_from].
        -- split.
           ++ rewrite Hw, issued_app. reflexivity.
           ++ intros items g H; injection H as Hi Hg; subst items g.
              destruct (Hitems items' g' eq_refl) as [Hlen Hfrom].
              cbn [length]. split; [lia|].
              intros [|i] b Hi.
              ** inversion Hi; subst b. exists a. rewrite Z.add_0_r. auto.
              ** destruct (Hfrom i b Hi) as (a' & Ha' & Hb).
                 exists a'. split; [|exact Hb].
                 replace (start + Z.of_nat (S i)) with (start + 1 + Z.of_nat i) by lia.
                 exact Ha'.
        -- split.
           ++ rewrite Hw, issued_app. reflexivity.
           ++ intros items g H; discriminate H.
      * unfold next at 1 in Hr.
        rewrite (walker_next_raise F req answer make start e w Hlt Hans) in Hr.
        exists 1%nat. split; [lia|]. cbn [requests_from].
        destruct (isinstance e cOSError); unfold ret in Hr; subst r; cbn [fst snd].
        -- split; [reflexivity|]. intros items g H; inversion H; subst.
           cbn [length]. split; [lia|]. intros i b Hi. destruct i; discriminate Hi.
        -- split; [reflexivity|]. intros items g H; discriminate H.
    + rewrite (walker_next_limit start w Hge) in Hr.
      exists 0%nat. unfold ret in Hr. subst r. cbn [fst snd requests_from].
      rewrite issued_nil.
      split; [lia|]. split; [reflexivity|].
      intros items g H; inversion H; subst. cbn [length]. split; [lia|].
      intros i b Hi. destruct i; discriminate Hi.
Qed.

(** While the queries succeed, [n] pulls issue [n] requests and no more. *)
Lemma walker_take_prefix items : forall start w,
  start + Z.of_nat (length items) <= 2 ^ 32 ->
  (forall i a, items !! i = Some a -> answer (start + Z.of_nat i) = Ok a) ->
  take_items F next (length items) (Running start) w
  = (Ok (map make items, Running (start + Z.of_nat (length items))),
     issued w (requests_from req start (length items))).
Proof.
  induction items as [|a items IH]; intros start w Hbound Hitems;
    cbn [length take_items map requests_from].
  - unfold ret. rewrite issued_nil, Z.add_0_r. reflexivity.
  - cbn [length] in Hbound.
    assert (Ha : answer start = Ok a).
    { rewrite <- (Z.add_0_r start). apply (Hitems 0%nat a). reflexivity. }
    unfold bind at 1. unfold next at 1.
    rewrite (walker_next_item F req answer make start a w) by (lia || assumption).
    fold next. unfold bind at 1.
    rewrite (IH (start + 1) (issued w [req start])).
    + unfold ret. cbn [fst snd]. rewrite issued_app.
      replace (start + 1 + Z.of_nat (length items))
        with (start + Z.of_nat (S (length items))) by lia.
      reflexivity.
    + lia.
    + intros i a' Hi.
      replace (start + 1 + Z.of_nat i) with (start + Z.of_nat (S i)) by lia.
      apply Hitems. exact Hi.
Qed.

(** Pulling [n] items and then [m] more is pulling [n + m] at once. *)
Lemma walker_take_batches n : forall m g w,
  take_items F next (n + m) g w
  = (first <- take_items F next n g ;;
     second <- take_items F next m (snd first) ;;
     ret ((fst first ++ fst second)%list, snd second)) w.
Proof.
  induction n as [|n IH]; intros m g w.
  - cbn [Nat.add take_items]. unfold bind, ret. cbn [fst snd app].
    destruct (take_items F next m g w) as [[[items g']|e] w']; reflexivity.
  - cbn [Nat.add take_items]. cbv beta iota delta [bind ret].
    destruct (next g w) as [[[[item|] g']|e] w1] eqn:Hnext; cbv beta iota.
    + rewrite IH. cbv beta iota delta [bind ret].
      destruct (take_items F next n g' w1) as [[[items1 g1]|e] w2]; [|reflexivity].
      cbn [fst snd].
      destruct (take_items F next m g1 w2) as [[[items2 g2]|e] w3]; reflexivity.
    + apply walker_next_end in Hnext. subst g'.
      cbn [fst snd]. rewrite take_items_finished. reflexivity.
    + reflexivity.
Qed.

End Generic.

End WalkerFacts.

(** ** More on the facade *)

Section FacadeFacts.

Variable F : Foreign.
Variable K : Kernel F.

Lemma with_buffer_type_same self : with_buffer_type self (_buffer_type self) = self.
Proof. destruct self; reflexivity. Qed.

Lemma with_buffer_type_twice self v1 v2 :
  with_buffer_type (with_buffer_type self v1) v2 = with_buffer_type self v2.
Proof. reflexivity. Qed.

(** X1. Assigning to [buffer_type] a value that is in the supported list
    succeeds, whether the value is a member or a plain integer: the value
    is stored, nothing else in the object changes and no request is
    issued. *)
Theorem buffer_type_set_supported value self w :
  py_in value (_supported_buffer_types self) = true ->
  buffer_type_set F value (self, w) = (Ok tt, (with_buffer_type self value, w)).
Proof.
  intros Hin.
  destruct (buffer_type_set_spec F value self w) as [[_ H]|[Hout _]].
  - exact H.
  - rewrite Hin in Hout. discriminate Hout.
Qed.

(** One operation changes at most the selection. *)
Lemma perform_frame op s :
  fst (snd (perform F K op s))
  = with_buffer_type (fst s) (_buffer_type (fst (snd (perform F K op s)))).
Proof.
  destruct op;
    try (rewrite perform_keeps_self;
         [symmetry; apply with_buffer_type_same | intros ? ?; discriminate]).
  destruct s as [self w]. cbn [perform].
  destruct (buffer_type_set_spec F value self w) as [[_ ->]|[_ [e [_ ->]]]];
    cbn [fst snd].
  - reflexivity.
  - symmetry. apply with_buffer_type_same.
Qed.

Lemma perform_all_frame ops : forall s self0,
  fst s = with_buffer_type self0 (_buffer_type (fst s)) ->
  fst (perform_all F K ops s)
  = with_buffer_type self0 (_buffer_type (fst (perform_all F K ops s))).
Proof.
  induction ops as [|op ops IH]; intros s self0 H0; cbn [perform_all fold_left].
  - exact H0.
  - apply IH.
    set (v := _buffer_type (fst (snd (perform F K op s)))).
    transitivity (with_buffer_type (fst s) v); [apply perform_frame|].
    rewrite H0. reflexivity.
Qed.

(** X2. Whatever operations are performed on a facade, and whether they
    return or raise, the object differs from the one they started on in the
    selected buffer type at most: the device path, the transport, the
    identity strings, the version, both capability sets and the list of
    supported buffer types are fixed for its lifetime. *)
Theorem operations_change_only_selection ops self w :
  let final := fst (perform_all F K ops (self, w)) in
  final = with_buffer_type self (_buffer_type final)
  /\ _device final = _device self
  /\ _ioc_ops final = _ioc_ops self
  /\ _physical_caps final = _physical_caps self
  /\ _device_caps final = _device_caps self
  /\ _supported_buffer_types final = _supported_buffer_types self.
Proof.
  intros final.
  assert (H : final = with_buffer_type self (_buffer_type final)).
  { apply perform_all_frame. cbn [fst]. symmetry. apply with_buffer_type_same. }
  split; [exact H|]. rewrite H. repeat split; reflexivity.
Qed.

(** *** Standard output *)

Lemma quiet_ret {A} (a : A) : quiet (F:=F) (ret a).
Proof. intros w. reflexivity. Qed.

Lemma quiet_ioctl {A} req (answer : result A) : quiet (ioctl (F:=F) req answer).
Proof. intros w. reflexivity. Qed.

Lemma quiet_bind {A B} (m : M (world F) A) (k : A -> M (world F) B) :
  quiet m -> (forall a, quiet (k a)) -> quiet (bind m k).
Proof.
  intros Hm Hk w. unfold bind. specialize (Hm w).
  destruct (m w) as [[a|e] w1]; cbn [snd] in *.
  - rewrite (Hk a w1). exact Hm.
  - exact Hm.
Qed.

Lemma quiet_try_except {A} (m : M (world F) A) cls (h : exn -> M (world F) A) :
  quiet m -> (forall e, quiet (h e)) -> quiet (try_except m cls h).
Proof.
  intros Hm Hh w. unfold try_except. specialize (Hm w).
  destruct (m w) as [[a|e] w1]; cbn [snd] in *.
  - exact Hm.
  - destruct (isinstance e cls); cbn [snd].
    + rewrite (Hh e w1). exact Hm.
    + exact Hm.
Qed.

Lemma quiet_walker_next {A B} req (answer : Z -> result A) (make : A -> B) g :
  quiet (walker_next (F:=F) req answer make g).
Proof.
  destruct g as [idx|]; cbv beta iota delta [walker_next]; [|apply quiet_ret].
  destruct (idx <? 2 ^ 32)%Z; [|apply quiet_ret].
  apply quiet_bind.
  - apply quiet_try_except; [|intros; apply quiet_ret].
    apply quiet_bind; [apply quiet_ioctl | intros; apply quiet_ret].
  - intros [item|]; apply quiet_ret.
Qed.

Lemma quiet_take_items {A} (next : walk -> M (world F) (option A * walk)) n :
  (forall g, quiet (next g)) -> forall g, quiet (take_items F next n g).
Proof.
  intros Hnext. induction n as [|n IH]; intros g; cbn [take_items].
  - apply quiet_ret.
  - apply quiet_bind; [apply Hnext|].
    intros [[item|] g']; [|apply quiet_ret].
    apply quiet_bind; [apply IH | intros; apply quiet_ret].
Qed.

Lemma keeps_stdout_ret {A} (a : A) : keeps_stdout (F:=F) (ret a).
Proof. intros s. reflexivity. Qed.

Lemma keeps_stdout_raise {A} e : keeps_stdout (F:=F) (A:=A) (raise e).
Proof. intros s. reflexivity. Qed.

Lemma keeps_stdout_get_self : keeps_stdout (get_self F).
Proof. intros s. reflexivity. Qed.

Lemma keeps_stdout_set_self self : keeps_stdout (set_self F self).
Proof. intros s. reflexivity. Qed.

Lemma keeps_stdout_lift_result {A} (r : result A) : keeps_stdout (F:=F) (lift_result r).
Proof. intros s. reflexivity. Qed.

Lemma keeps_stdout_in_world {A} (m : M (world F) A) :
  quiet m -> keeps_stdout (in_world F m).
Proof.
  intros Hm [self w]. unfold in_world. cbn [fst snd]. specialize (Hm w).
  destruct (m w). exact Hm.
Qed.

Lemma keeps_stdout_bind {A B} (m : method F A) (k : A -> method F B) :
  keeps_stdout m -> (forall a, keeps_stdout (k a)) -> keeps_stdout (bind m k).
Proof.
  intros Hm Hk s. unfold bind. specialize (Hm s).
  destruct (m s) as [[a|e] s1]; cbn [snd] in *.
  - rewrite (Hk a s1). exact Hm.
  - exact Hm.
Qed.

Lemma keeps_stdout_try_except {A} (m : method F A) cls (h : exn -> method F A) :
  keeps_stdout m -> (forall e, keeps_stdout (h e)) -> keeps_stdout (try_except m cls h).
Proof.
  intros Hm Hh s. unfold try_except. specialize (Hm s).
  destruct (m s) as [[a|e] s1]; cbn [snd] in *.
  - exact Hm.
  - destruct (isinstance e cls); cbn [snd].
    + rewrite (Hh e s1). exact Hm.
    + exact Hm.
Qed.

Ltac keeps_stdout_tac :=
  repeat first
    [ apply keeps_stdout_ret | apply keeps_stdout_raise
    | apply keeps_stdout_get_self | apply keeps_stdout_set_self
    | apply keeps_stdout_lift_result
    | apply keeps_stdout_in_world
    | apply quiet_ioctl
    | apply quiet_take_items; intros ?
    | apply (quiet_walker_next _ _ _)
    | apply keeps_stdout_bind; [|intros ?]
    | apply keeps_stdout_try_except; [|intros ?]
    | match goal with
      | |- keeps_stdout (if ?b then _ else _) => destruct b
      | |- keeps_stdout (let '(_, _) := ?p in _) => destruct p
      end ].

Lemma perform_keeps_stdout op : keeps_stdout (perform F K op).
Proof.
  destruct op; cbn [perform];
    unfold discard, name, device, driver_name, bus, version_string,
      version_tuple, capabilities_prop, physical_capabilities,
      supported_buffer_types, buffer_type, cropping_capabilities, formats_take,
      cropping_rectangle, cropping_rectangle_set, buffer_type_set,
      supported_buffer_types, buffer_type, crop_cap, get_crop, set_crop;
    try rewrite iter_buffer_formats_next_walker;
    keeps_stdout_tac.
Qed.

(** X3. No operation on a constructed facade writes to standard output:
    after any sequence of operations, returning or raising, the output is
    what it was before. *)
Theorem operations_write_no_output ops s :
  stdout (snd (perform_all F K ops s)) = stdout (snd s).
Proof.
  revert s. induction ops as [|op ops IH]; intros s; cbn [perform_all fold_left].
  - reflexivity.
  - fold (perform_all F K ops (snd (perform F K op s))).
    rewrite IH. apply perform_keeps_stdout.
Qed.

(** *** Accessors *)


(** X5. Reading [cropping_rectangle] issues exactly one get-crop request for
    the selected buffer type, whatever that type is, and leaves the object
    alone.  It returns the decoded rectangle when the transport answers;
    a failure of the transport always reaches the caller: as
    [FeatureNotSupported] when it is an [IoctlError] whose text has
    [Errno 22], as the exception itself otherwise. *)
Theorem cropping_rectangle_get_outcomes self w :
  let dev := ioc_device (_ioc_ops self) in
  let answer := k_get_crop K dev (_buffer_type self) in
  snd (cropping_rectangle F K (self, w))
  = (self, issued w [ReqGetCrop dev (_buffer_type self)])
  /\ (forall cropping, answer = Ok cropping ->
      fst (cropping_rectangle F K (self, w))
      = Ok (V4l2Rectangle_from_v4l2 F (c cropping)))
  /\ (forall e, answer = Raise e ->
      isinstance e cIoctlError && str_contains "Errno 22" (exn_str e) = true ->
      fst (cropping_rectangle F K (self, w))
      = Raise (FeatureNotSupported "Cropping is not supported"))
  /\ (forall e, answer = Raise e ->
      isinstance e cIoctlError && str_contains "Errno 22" (exn_str e) = false ->
      fst (cropping_rectangle F K (self, w)) = Raise e).
Proof.
  intros dev answer. rewrite cropping_rectangle_get_spec. cbn [fst snd].
  fold dev. fold answer.
  split; [reflexivity|]. split; [|split].
  - intros cropping ->. reflexivity.
  - intros e -> ->. reflexivity.
  - intros e -> ->. reflexivity.
Qed.

(** X6. Assigning [cropping_rectangle] issues exactly one set-crop request,
    carrying the selected buffer type and the converted rectangle, and
    leaves the object alone.  It returns when the transport succeeds, raises
    [FeatureNotSupported] for an [IoctlError] whose text has [Errno 25], and
    raises on any exception that is not an [IoctlError]. *)
Theorem cropping_rectangle_set_outcomes rectangle self w :
  let dev := ioc_device (_ioc_ops self) in
  let rect := V4l2Rectangle_to_v4l2 F rectangle in
  let answer := k_set_crop K dev (_buffer_type self) rect in
  snd (cropping_rectangle_set F K rectangle (self, w))
  = (self, issued w [ReqSetCrop dev (_buffer_type self) rect])
  /\ (answer = Ok tt ->
      fst (cropping_rectangle_set F K rectangle (self, w)) = Ok tt)
  /\ (forall e, answer = Raise e -> isinstance e cIoctlError = true ->
      str_contains "Errno 25" (exn_str e) = true ->
      fst (cropping_rectangle_set F K rectangle (self, w))
      = Raise (FeatureNotSupported "Cropping is not supported"))
  /\ (forall e, answer = Raise e -> isinstance e cIoctlError = false ->
      fst (cropping_rectangle_set F K rectangle (self, w)) = Raise e).
Proof.
  intros dev rect answer.
  pose proof (cropping_rectangle_set_spec F K rectangle self w) as Hspec.
  cbv zeta in Hspec. fold dev rect in Hspec. fold answer in Hspec.
  rewrite Hspec. cbn [fst snd].
  split; [reflexivity|]. split; [|split].
  - intros ->. reflexivity.
  - intros e -> -> ->. reflexivity.
  - intros e -> ->. reflexivity.
Qed.

(** *** More on construction *)

Lemma V4l2Device_init_fields device w self w' :
  V4l2Device_init F K device w = (Ok self, w') ->
  exists caps,
    k_open K (device_path device) = Ok tt
    /\ k_query_cap K (device_path device) = Ok caps
    /\ _device self = device_path device
    /\ _ioc_ops self = {| ioc_device := device_path device |}
    /\ bytes_decode F (driver caps) = Ok (_driver self)
    /\ bytes_decode F (card caps) = Ok (_name self)
    /\ bytes_decode F (bus_info caps) = Ok (_bus self)
    /\ _version self = (Z.shiftr (Z.land (version caps) 0xFF0000) 16,
                        Z.shiftr (Z.land (version caps) 0x00FF00) 8,
                        Z.land (version caps) 0x0000FF).
Proof.
  unfold V4l2Device_init. fold (device_path device).
  cbv beta iota zeta delta [VidIocOps_init query_cap ioctl print bind ret
    lift_result ioc_device].
  destruct (k_open K (device_path device)) as [[]|?] eqn:Hopen; [|discriminate].
  destruct (k_query_cap K (device_path device)) as [caps|?] eqn:Hcaps;
    [|discriminate].
  destruct (bytes_decode F (driver caps)) eqn:Hd1; [|discriminate].
  destruct (bytes_decode F (card caps)) eqn:Hd2; [|discriminate].
  destruct (bytes_decode F (bus_info caps)) eqn:Hd3; [|discriminate].
  rewrite comprehension_supported.
  unfold list_getitem.
  destruct (List.filter _ V4l2BufferType_members) as [|first rest];
    cbv beta iota; [discriminate|].
  intros Hinit. inversion Hinit; subst self w'; clear Hinit.
  exists caps. cbn [_device _ioc_ops _driver _name _bus _version].
  repeat split; try reflexivity; assumption.
Qed.

Lemma version_byte_low v : Z.land v 0x0000FF = v mod 256.
Proof. change 0x0000FF with (Z.ones 8). rewrite Z.land_ones by lia. reflexivity. Qed.

Lemma version_byte_mid v : Z.shiftr (Z.land v 0x00FF00) 8 = (v / 256) mod 256.
Proof.
  rewrite Z.shiftr_land. change (Z.shiftr 0x00FF00 8) with (Z.ones 8).
  rewrite Z.land_ones, Z.shiftr_div_pow2 by lia. reflexivity.
Qed.

Lemma version_byte_high v : Z.shiftr (Z.land v 0xFF0000) 16 = (v / 65536) mod 256.
Proof.
  rewrite Z.shiftr_land. change (Z.shiftr 0xFF0000 16) with (Z.ones 8).
  rewrite Z.land_ones, Z.shiftr_div_pow2 by lia. reflexivity.
Qed.

(** X7. The version triple of a constructed facade is the three low bytes
    of the version the capability query reported: each component lies in
    0..255, bits above the third byte are ignored, and a version the kernel
    encoded as KERNEL_VERSION(a, b, c) with components below 256 is read
    back as (a, b, c). *)
Theorem version_tuple_at_construction device w self w' :
  V4l2Device_init F K device w = (Ok self, w') ->
  exists caps,
    k_query_cap K (_device self) = Ok caps
    /\ (let '(major, minor, patch) := _version self in
        0 <= major < 256 /\ 0 <= minor < 256 /\ 0 <= patch < 256
        /\ KERNEL_VERSION major minor patch = version caps mod 2 ^ 24)
    /\ (forall a b c, 0 <= a < 256 -> 0 <= b < 256 -> 0 <= c < 256 ->
                      version caps = KERNEL_VERSION a b c ->
                      fst (version_tuple F (self, w')) = Ok (a, b, c)).
Proof.
  intros Hinit.
  apply V4l2Device_init_fields in Hinit
    as (caps & _ & Hcaps & Hdev & _ & _ & _ & _ & Hver).
  exists caps. rewrite Hdev. split; [exact Hcaps|].
  rewrite Hver, version_byte_low, version_byte_mid, version_byte_high.
  unfold KERNEL_VERSION. rewrite !Z.shiftl_mul_pow2 by lia.
  change (2 ^ 16) with 65536. change (2 ^ 8) with 256. change (2 ^ 24) with 16777216.
  split.
  - repeat split; try apply Z.mod_pos_bound; try lia.
    generalize (version caps). intros v. Z.div_mod_to_equations. lia.
  - intros a b c Ha Hb Hc Hv.
    cbv beta iota delta [version_tuple bind get_self ret fst snd].
    rewrite Hver, version_byte_low, version_byte_mid, version_byte_high, Hv.
    rewrite !Z.shiftl_mul_pow2 by lia.
    change (2 ^ 16) with 65536. change (2 ^ 8) with 256.
    do 3 f_equal; [f_equal|..]; Z.div_mod_to_equations; lia.
Qed.

(** X8. Construction passes on what goes wrong before the capabilities are
    decoded: if the device file does not open, the transport's exception is
    raised after the open request alone; if the capability query fails, its
    exception is raised after the two requests; in both cases nothing is
    written to standard output. *)
Theorem construction_raises_transport_error device w e :
  let path := device_path device in
  (k_open K path = Raise e ->
   V4l2Device_init F K device w = (Raise e, issued w [ReqOpen path]))
  /\ (k_open K path = Ok tt -> k_query_cap K path = Raise e ->
      V4l2Device_init F K device w
      = (Raise e, issued w [ReqOpen path; ReqQueryCap path])).
Proof.
  intros path. unfold V4l2Device_init. fold (device_path device). fold path.
  cbv beta iota zeta delta [VidIocOps_init query_cap ioctl print bind ret
    lift_result ioc_device].
  split.
  - intros ->. reflexivity.
  - intros -> ->. unfold issued. cbn [calls stdout].
    rewrite <- app_assoc. reflexivity.
Qed.

(** X9. A constructed facade is bound to the path it was given (for an
    integer [n], the path [/dev/video] followed by [n] in decimal): its
    transport addresses that path, so every later request of the facade
    goes there, and its driver, name and bus are the decoded [driver],
    [card] and [bus_info] fields of the capability answer. *)
Theorem identity_at_construction device w self w' :
  V4l2Device_init F K device w = (Ok self, w') ->
  _device self = device_path device
  /\ ioc_device (_ioc_ops self) = _device self
  /\ (forall n, device = DevInt n -> _device self = "/dev/video" ++ pretty n)
  /\ exists caps,
      k_query_cap K (_device self) = Ok caps
      /\ bytes_decode F (driver caps) = Ok (_driver self)
      /\ bytes_decode F (card caps) = Ok (_name self)
      /\ bytes_decode F (bus_info caps) = Ok (_bus self).
Proof.
  intros Hinit.
  apply V4l2Device_init_fields in Hinit
    as (caps & _ & Hcaps & Hdev & Hops & Hd & Hn & Hb & _).
  split; [exact Hdev|]. split; [rewrite Hops, Hdev; reflexivity|].
  split; [intros n ->; exact Hdev|].
  exists caps. rewrite Hdev. auto.
Qed.

Lemma members_NoDup : List.NoDup V4l2BufferType_members.
Proof.
  unfold V4l2BufferType_members.
  repeat (constructor; [cbn [In]; intuition discriminate|]). constructor.
Qed.

Lemma V4l2Device_init_selection device w self w' :
  V4l2Device_init F K device w = (Ok self, w') -> selection_supported self.
Proof.
  intros Hinit.
  apply V4l2Device_init_ok in Hinit
    as (caps & first & _ & _ & _ & _ & _ & Hhead & Hsel & _).
  unfold selection_supported. rewrite Hsel. apply py_in_member.
  destruct (_supported_buffer_types self) as [|b l]; [discriminate|].
  inversion Hhead; subst. left. reflexivity.
Qed.

(** X10. The supported list of a constructed facade has no buffer type
    twice, follows the declaration order of the enumeration and holds
    exactly the buffer types whose flag is in the device-specific
    capability set; so an assignment to [buffer_type] succeeds exactly for
    the values equal to a buffer type the device file is capable of. *)
Theorem supported_list_at_construction device w self w' :
  V4l2Device_init F K device w = (Ok self, w') ->
  List.NoDup (_supported_buffer_types self)
  /\ sublist (_supported_buffer_types self) V4l2BufferType_members
  /\ (forall b, In b (_supported_buffer_types self)
                <-> cap_contains (_device_caps self) (bt_flag b) = true)
  /\ (forall value w2,
        fst (buffer_type_set F value (self, w2)) = Ok tt
        <-> exists b, py_int value = Some (bt_value b)
                      /\ cap_contains (_device_caps self) (bt_flag b) = true).
Proof.
  intros Hinit.
  apply V4l2Device_init_ok in Hinit
    as (caps & first & _ & _ & _ & _ & Hsup & _).
  assert (Hmem : forall b, In b (_supported_buffer_types self)
                           <-> cap_contains (_device_caps self) (bt_flag b) = true).
  { intros b. rewrite Hsup, filter_In. split; [intros [_ H]; exact H|].
    intros H. split; [apply all_members | exact H]. }
  split; [rewrite Hsup; apply List.NoDup_filter, members_NoDup|].
  split; [rewrite Hsup; apply filter_keeps_order|].
  split; [exact Hmem|].
  intros value w2. split.
  - intros Hset.
    destruct (buffer_type_set_spec F value self w2) as [[Hin _]|[_ [e [_ H]]]].
    + destruct (py_int value) as [x|] eqn:Hint.
      * rewrite (py_in_int _ _ _ Hint) in Hin.
        apply existsb_exists in Hin as (b & Hb & Hx).
        apply Z.eqb_eq in Hx. subst x.
        exists b. split; [reflexivity | apply Hmem; exact Hb].
      * rewrite (py_in_no_int _ _ Hint) in Hin. discriminate Hin.
    + rewrite H in Hset. discriminate Hset.
  - intros (b & Hint & Hcap).
    destruct (buffer_type_set_spec F value self w2) as [[_ ->]|[Hout _]];
      [reflexivity|].
    rewrite (py_in_int _ _ _ Hint) in Hout.
    assert (Hex : existsb (fun b' => Z.eqb (bt_value b) (bt_value b'))
                    (_supported_buffer_types self) = true).
    { apply existsb_exists. exists b. split; [apply Hmem; exact Hcap|].
      apply Z.eqb_refl. }
    rewrite Hex in Hout. discriminate Hout.
Qed.

(** X11. After a value was assigned to [buffer_type], the walk over
    [formats] queries the transport with that very value as the type, for
    consecutive indices from 0, with at most as many requests as items are
    pulled; the assignment itself adds no request. *)
Theorem formats_follow_selection value self w n :
  py_in value (_supported_buffer_types self) = true ->
  exists k,
    (k <= n)%nat
    /\ snd ((buffer_type_set F value ;;; formats_take F K n) (self, w))
       = (with_buffer_type self value,
          issued w (requests_from
                      (fun i => ReqEnumFmt (ioc_device (_ioc_ops self)) i value)
                      0 k)).
Proof.
  intros Hin.
  destruct (walker_take_safe F
              (fun i => ReqEnumFmt (ioc_device (_ioc_ops self)) i value)
              (fun i => k_enum_fmt K (ioc_device (_ioc_ops self)) i value)
              (fun d => {| fmt_ioc_ops := _ioc_ops self; _fmt_desc := d |})
              n 0 w) as (k & Hk & Hw & _).
  exists k. split; [exact Hk|].
  unfold bind at 1.
  destruct (buffer_type_set_spec F value self w) as [[_ ->]|[Hout _]];
    [|rewrite Hin in Hout; discriminate Hout].
  cbv beta iota delta [formats_take buffer_type bind get_self ret in_world
    fst snd].
  cbn [with_buffer_type _buffer_type _ioc_ops].
  rewrite iter_buffer_formats_next_walker. cbn [_ioc_ops].
  rewrite <- Hw.
  destruct (take_items F _ n (Running 0) w) as [r w1]. reflexivity.
Qed.

End FacadeFacts.

Section WalkerProperties.

Variable F : Foreign.
Variable K : Kernel F.

(** X12. Whatever the transport answers, pulling up to [n] items from a
    walk issues at most [n] requests, for consecutive indices from the
    current one, each once; the items yielded are as many as the requests
    or one fewer, and the i-th item is made of the answer at the i-th index
    (with the transport of the facade or format walked).  This holds for
    the formats of a buffer type and for the sizes of a format. *)
Theorem enumeration_requests_consecutive :
  (forall self type n start w,
      exists k,
        (k <= n)%nat
        /\ snd (take_items F (iter_buffer_formats_next F K self type) n
                  (Running start) w)
           = issued w (requests_from
                         (fun i => ReqEnumFmt (ioc_device (_ioc_ops self)) i type)
                         start k)
        /\ forall items g,
            fst (take_items F (iter_buffer_formats_next F K self type) n
                   (Running start) w) = Ok (items, g) ->
            (length items <= k <= S (length items))%nat
            /\ forall i fmt, items !! i = Some fmt ->
                 fmt_ioc_ops fmt = _ioc_ops self
                 /\ k_enum_fmt K (ioc_device (_ioc_ops self))
                      (start + Z.of_nat i) type = Ok (_fmt_desc fmt))
  /\ (forall (self : V4l2Format) n start w,
      exists k,
        (k <= n)%nat
        /\ snd (take_items F (sizes_next F K self) n (Running start) w)
           = issued w (requests_from
                         (fun i => ReqEnumFrameSizes (ioc_device (fmt_ioc_ops self))
                                     i (pixelformat (_fmt_desc self)))
                         start k)
        /\ forall items g,
            fst (take_items F (sizes_next F K self) n (Running start) w)
            = Ok (items, g) ->
            (length items <= k <= S (length items))%nat
            /\ forall i size, items !! i = Some size ->
                 frm_ioc_ops F size = fmt_ioc_ops self
                 /\ k_enum_frame_sizes K (ioc_device (fmt_ioc_ops self))
                      (start + Z.of_nat i) (pixelformat (_fmt_desc self))
                    = Ok (frm_size F size)).
Proof.
  split.
  - intros self type n start w. rewrite iter_buffer_formats_next_walker.
    destruct (walker_take_safe F
                (fun i => ReqEnumFmt (ioc_device (_ioc_ops self)) i type)
                (fun i => k_enum_fmt K (ioc_device (_ioc_ops self)) i type)
                (fun d => {| fmt_ioc_ops := _ioc_ops self; _fmt_desc := d |})
                n start w) as (k & Hk & Hw & Hitems).
    exists k. split; [exact Hk|]. split; [exact Hw|].
    intros items g Hok. destruct (Hitems items g Hok) as [Hlen Hfrom].
    split; [exact Hlen|]. intros i fmt Hi.
    destruct (Hfrom i fmt Hi) as (d & Hd & ->). split; [reflexivity | exact Hd].
  - intros self n start w. rewrite sizes_next_walker.
    destruct (walker_take_safe F
                (fun i => ReqEnumFrameSizes (ioc_device (fmt_ioc_ops self)) i
                            (pixelformat (_fmt_desc self)))
                (fun i => k_enum_frame_sizes K (ioc_device (fmt_ioc_ops self)) i
                            (pixelformat (_fmt_desc self)))
                (Build_V4l2FrameSize (fmt_ioc_ops self))
                n start w) as (k & Hk & Hw & Hitems).
    exists k. split; [exact Hk|]. split; [exact Hw|].
    intros items g Hok. destruct (Hitems items g Hok) as [Hlen Hfrom].
    split; [exact Hlen|]. intros i size Hi.
    destruct (Hfrom i size Hi) as (d & Hd & ->). split; [reflexivity | exact Hd].
Qed.

(** X13. The walks are lazy: while the queries succeed, pulling [n] items
    issues exactly the [n] requests for the indices 0 to n-1, yields the
    [n] items in index order and leaves the generator ready to query index
    [n]; the next index is not asked for before the next item is pulled. *)
Theorem enumeration_is_lazy :
  (forall self type items w,
      Z.of_nat (length items) <= 2 ^ 32 ->
      (forall i d, items !! i = Some d ->
                   k_enum_fmt K (ioc_device (_ioc_ops self)) (Z.of_nat i) type = Ok d) ->
      take_items F (iter_buffer_formats_next F K self type) (length items)
        (Running 0) w
      = (Ok (map (fun d => {| fmt_ioc_ops := _ioc_ops self; _fmt_desc := d |})
                 items,
             Running (Z.of_nat (length items))),
         issued w (requests_from
                     (fun i => ReqEnumFmt (ioc_device (_ioc_ops self)) i type)
                     0 (length items))))
  /\ (forall (self : V4l2Format) items w,
      Z.of_nat (length items) <= 2 ^ 32 ->
      (forall i d, items !! i = Some d ->
                   k_enum_frame_sizes K (ioc_device (fmt_ioc_ops self)) (Z.of_nat i)
                     (pixelformat (_fmt_desc self)) = Ok d) ->
      take_items F (sizes_next F K self) (length items) (Running 0) w
      = (Ok (map (Build_V4l2FrameSize (fmt_ioc_ops self)) items,
             Running (Z.of_nat (length items))),
         issued w (requests_from
                     (fun i => ReqEnumFrameSizes (ioc_device (fmt_ioc_ops self)) i
                                 (pixelformat (_fmt_desc self)))
                     0 (length items)))).
Proof.
  split.
  - intros self type items w Hbound Hitems.
    rewrite iter_buffer_formats_next_walker.
    apply (walker_take_prefix F _ _ _ items 0 w); assumption.
  - intros self items w Hbound Hitems.
    rewrite sizes_next_walker.
    apply (walker_take_prefix F _ _ _ items 0 w); assumption.
Qed.

(** X14. The walks can be resumed: pulling [n] items and then [m] more from
    the generator as it was left gives the same items, the same requests
    and the same outcome as pulling [n + m] at once. *)
Theorem enumeration_in_batches :
  (forall self type n m g w,
      take_items F (iter_buffer_formats_next F K self type) (n + m) g w
      = (first <- take_items F (iter_buffer_formats_next F K self type) n g ;;
         second <- take_items F (iter_buffer_formats_next F K self type) m
                     (snd first) ;;
         ret ((fst first ++ fst second)%list, snd second)) w)
  /\ (forall (self : V4l2Format) n m g w,
      take_items F (sizes_next F K self) (n + m) g w
      = (first <- take_items F (sizes_next F K self) n g ;;
         second <- take_items F (sizes_next F K self) m (snd first) ;;
         ret ((fst first ++ fst second)%list, snd second)) w).
Proof.
  split.
  - intros self type n m g w. rewrite iter_buffer_formats_next_walker.
    apply walker_take_batches.
  - intros self n m g w. rewrite sizes_next_walker. apply walker_take_batches.
Qed.

(** X15. A walk that has ended yields nothing more and issues no request,
    however many items are pulled; a walk that reached the index 2^32 ends
    without a request for it. *)
Theorem enumeration_stays_ended :
  (forall self type n w,
      take_items F (iter_buffer_formats_next F K self type) n Finished w
      = (Ok ([], Finished), w))
  /\ (forall self type n idx w,
      2 ^ 32 <= idx ->
      take_items F (iter_buffer_formats_next F K self type) (S n) (Running idx) w
      = (Ok ([], Finished), w))
  /\ (forall (self : V4l2Format) n w,
      take_items F (sizes_next F K self) n Finished w = (Ok ([], Finished), w))
  /\ (forall (self : V4l2Format) n idx w,
      2 ^ 32 <= idx ->
      take_items F (sizes_next F K self) (S n) (Running idx) w
      = (Ok ([], Finished), w)).
Proof.
  split; [|split; [|split]].
  - intros self type n w. rewrite iter_buffer_formats_next_walker.
    apply take_items_finished.
  - intros self type n idx w Hidx. rewrite iter_buffer_formats_next_walker.
    apply take_items_limit. exact Hidx.
  - intros self n w. rewrite sizes_next_walker. apply take_items_finished.
  - intros self n idx w Hidx. rewrite sizes_next_walker.
    apply take_items_limit. exact Hidx.
Qed.

End WalkerProperties.

(** ** More on device discovery *)

Section DiscoveryFacts.

Variable F : Foreign.
Variable K : Kernel F.
Variable FS : FileSystem.

(** One candidate: kept when its facade is constructed, skipped when the
    constructor raises an [OSError], fatal otherwise. *)
Lemma construct_devices_cons dev rest w :
  construct_devices F K (dev :: rest) w
  = match V4l2Device_init F K (DevPath dev) w with
    | (Ok dev_instance, w1) =>
        match construct_devices F K rest w1 with
        | (Ok others, w2) => (Ok (dev_instance :: others), w2)
        | (Raise e, w2) => (Raise e, w2)
        end
    | (Raise e, w1) =>
        if isinstance e cOSError
        then construct_devices F K rest w1
        else (Raise e, w1)
    end.
Proof.
  cbn [construct_devices]. cbv beta iota delta [bind try_except ret].
  destruct (V4l2Device_init F K (DevPath dev) w) as [[d|e] w1]; cbv beta iota.
  - destruct (construct_devices F K rest w1) as [[others|e] w2]; reflexivity.
  - destruct (isinstance e cOSError); cbv beta iota; [|reflexivity].
    destruct (construct_devices F K rest w1) as [[others|e'] w2]; reflexivity.
Qed.

Lemma construct_devices_ok dev_list : forall w devs w',
  construct_devices F K dev_list w = (Ok devs, w') ->
  sublist (map _device devs) dev_list
  /\ Forall selection_supported devs
  /\ Forall (fun d => ioc_device (_ioc_ops d) = _device d) devs.
Proof.
  induction dev_list as [|dev rest IH]; intros w devs w' H.
  - inversion H; subst. split; [constructor|]. split; constructor.
  - rewrite construct_devices_cons in H.
    destruct (V4l2Device_init F K (DevPath dev) w) as [[d|e] w1] eqn:Hinit.
    + destruct (construct_devices F K rest w1) as [[others|e] w2] eqn:Hrest;
        [|discriminate].
      inversion H; subst devs w'; clear H.
      destruct (IH _ _ _ Hrest) as (Hsub & Hsel & Hops).
      pose proof (V4l2Device_init_selection F K _ _ _ _ Hinit) as Hd.
      apply V4l2Device_init_fields in Hinit
        as (caps & _ & _ & Hdev & Hioc & _).
      cbn [device_path] in Hdev, Hioc. cbn [map]. rewrite Hdev.
      split; [apply sublist_skip; exact Hsub|].
      split; constructor; try assumption.
      rewrite Hioc, Hdev. reflexivity.
    + destruct (isinstance e cOSError); [|discriminate].
      destruct (IH _ _ _ H) as (Hsub & Hsel & Hops).
      split; [apply sublist_cons; exact Hsub|]. split; assumption.
Qed.

(** X16. What discovery yields, when it completes: facades of candidate
    paths only, in the order the paths were collected and none more often
    than collected, each with its selection in its supported list and its
    transport on its own path; with link-skipping none of them is for a
    link whose target was collected too. *)
Theorem discovery_yields_candidates_in_order skip_links w devs w' :
  V4l2DeviceIterator_iter F K FS skip_links w = (Ok devs, w') ->
  exists kept,
    candidate_devices FS skip_links = Ok kept
    /\ sublist (map _device devs) kept
    /\ sublist kept (collect_devices FS)
    /\ Forall selection_supported devs
    /\ Forall (fun d => ioc_device (_ioc_ops d) = _device d) devs
    /\ (skip_links = true ->
        forall d, In d devs ->
                  redundant_link FS (collect_devices FS) (_device d) = false).
Proof.
  unfold V4l2DeviceIterator_iter, candidate_devices.
  rewrite remove_links_filter.
  cbv beta iota zeta delta [bind lift_result].
  set (dev_list := collect_devices FS).
  set (kept := List.filter (fun dev => negb (redundant_link FS dev_list dev)) dev_list).
  intros H.
  exists (if skip_links then kept else dev_list).
  assert (Hrun : construct_devices F K (if skip_links then kept else dev_list) w
                 = (Ok devs, w')).
  { destruct skip_links; exact H. }
  destruct (construct_devices_ok _ _ _ _ Hrun) as (Hsub & Hsel & Hops).
  split; [destruct skip_links; reflexivity|].
  split; [exact Hsub|].
  split; [destruct skip_links; [apply filter_keeps_order | reflexivity]|].
  split; [exact Hsel|]. split; [exact Hops|].
  intros -> d Hd.
  assert (Hin : In (_device d) kept).
  { apply list_elem_of_In. apply (sublist_subseteq _ _ Hsub).
    apply list_elem_of_In, in_map, Hd. }
  apply filter_In in Hin as [_ Hkeep]. apply negb_true_iff in Hkeep. exact Hkeep.
Qed.

(** X17. A candidate whose facade cannot be constructed: if the constructor
    raises an [OSError] the candidate is skipped and discovery goes on with
    the remaining paths; if it raises anything else (the [IndexError] of a
    device without a supported buffer type, for one) discovery raises that
    exception and does not open the remaining paths. *)
Theorem discovery_skips_only_OSError dev rest w e w1 :
  V4l2Device_init F K (DevPath dev) w = (Raise e, w1) ->
  (isinstance e cOSError = true ->
   construct_devices F K (dev :: rest) w = construct_devices F K rest w1)
  /\ (isinstance e cOSError = false ->
      construct_devices F K (dev :: rest) w = (Raise e, w1)).
Proof.
  intros Hinit. rewrite construct_devices_cons, Hinit.
  split; intros ->; reflexivity.
Qed.

(** X18. With link-skipping a collected path stays a candidate exactly when
    it is not a link or its resolved target was not collected: a link to a
    device file outside the collected list is kept. *)
Theorem link_skipping_keeps kept :
  candidate_devices FS true = Ok kept ->
  forall dev,
    In dev kept
    <-> In dev (collect_devices FS)
        /\ (is_symlink FS dev = false
            \/ path_in (resolve FS dev) (collect_devices FS) = false).
Proof.
  unfold candidate_devices. rewrite remove_links_filter.
  intros H; inversion H; subst kept; clear H. intros dev.
  rewrite filter_In. unfold redundant_link.
  rewrite negb_true_iff, andb_false_iff. reflexivity.
Qed.

(** The open requests a construction adds: the one for its path. *)
Lemma V4l2Device_init_opened device w :
  opened (calls (snd (V4l2Device_init F K device w)))
  = (opened (calls w) ++ [device_path device])%list.
Proof.
  assert (Hopened : forall (l1 l2 : list (request F)),
             opened (l1 ++ l2) = (opened l1 ++ opened l2)%list).
  { induction l1 as [|r l1 IH]; intros l2; [reflexivity|].
    destruct r; cbn [app opened]; rewrite ?IH; reflexivity. }
  unfold V4l2Device_init. fold (device_path device).
  cbv beta iota zeta delta [VidIocOps_init query_cap ioctl print bind ret
    lift_result ioc_device].
  destruct (k_open K (device_path device)) as [[]|?]; cbn [snd calls].
  - destruct (k_query_cap K (device_path device)) as [caps|?]; cbn [snd calls].
    + destruct (bytes_decode F (driver caps)); cbn [snd calls];
        [|rewrite !Hopened; cbn [opened]; rewrite app_nil_r; reflexivity].
      destruct (bytes_decode F (card caps)); cbn [snd calls];
        [|rewrite !Hopened; cbn [opened]; rewrite app_nil_r; reflexivity].
      destruct (bytes_decode F (bus_info caps)); cbn [snd calls];
        [|rewrite !Hopened; cbn [opened]; rewrite app_nil_r; reflexivity].
      rewrite comprehension_supported.
      destruct (List.filter _ V4l2BufferType_members) as [|first rest];
        cbv beta iota delta [list_getitem lookup list_lookup]; cbn [snd calls];
        rewrite !Hopened; cbn [opened]; rewrite app_nil_r; reflexivity.
    + rewrite !Hopened. cbn [opened]. rewrite app_nil_r. reflexivity.
  - rewrite Hopened. reflexivity.
Qed.

Lemma construct_devices_opened dev_list : forall w devs w',
  construct_devices F K dev_list w = (Ok devs, w') ->
  opened (calls w') = (opened (calls w) ++ dev_list)%list.
Proof.
  induction dev_list as [|dev rest IH]; intros w devs w' H.
  - inversion H; subst. rewrite app_nil_r. reflexivity.
  - rewrite construct_devices_cons in H.
    pose proof (V4l2Device_init_opened (DevPath dev) w) as Hopen.
    cbn [device_path] in Hopen.
    destruct (V4l2Device_init F K (DevPath dev) w) as [[d|e] w1];
      cbn [snd] in Hopen.
    + destruct (construct_devices F K rest w1) as [[others|e] w2] eqn:Hrest;
        [|discriminate].
      inversion H; subst devs w'; clear H.
      rewrite (IH _ _ _ Hrest), Hopen, <- app_assoc. reflexivity.
    + destruct (isinstance e cOSError); [|discriminate].
      rewrite (IH _ _ _ H), Hopen, <- app_assoc. reflexivity.
Qed.

(** X19. A discovery that completes has opened every candidate path exactly
    once, in candidate order, also those it then skipped, and no other
    path. *)
Theorem discovery_opens_each_candidate_once skip_links w devs w' kept :
  candidate_devices FS skip_links = Ok kept ->
  V4l2DeviceIterator_iter F K FS skip_links w = (Ok devs, w') ->
  opened (calls w') = (opened (calls w) ++ kept)%list.
Proof.
  intros Hkept. unfold V4l2DeviceIterator_iter. rewrite Hkept.
  cbv beta iota delta [bind lift_result].
  apply construct_devices_opened.
Qed.

End DiscoveryFacts.

(** ** The further properties on the concrete host *)

(** VIDEO_OUTPUT is assigned to the grabber as the integer 2. *)
Lemma buffer_type_set_supported_witness :
  buffer_type_set Host.foreign (PyInt 2) (Host.grabber0, world0)
  = (Ok tt, (with_buffer_type Host.grabber0 (PyInt 2), world0)).
Proof.
  apply (buffer_type_set_supported Host.foreign (PyInt 2) Host.grabber0 world0).
  reflexivity.
Defined.


(** The webcam has no cropping rectangle to read, the studio device has. *)
Lemma cropping_rectangle_get_outcomes_witness :
  fst (cropping_rectangle Host.foreign Host.webcam (Host.video0, world0))
  = Raise (FeatureNotSupported "Cropping is not supported")
  /\ fst (cropping_rectangle Host.foreign Host.studio (Host.grabber0, world0))
     = Ok (0, 0, 640, 480).
Proof.
  split.
  - apply (proj1 (proj2 (proj2 (cropping_rectangle_get_outcomes
                                  Host.foreign Host.webcam Host.video0 world0)))
             (Host.IoctlError Host.EINVAL "Invalid argument"));
      reflexivity.
  - apply (proj1 (proj2 (cropping_rectangle_get_outcomes
                           Host.foreign Host.studio Host.grabber0 world0))
             (Build_v4l2_crop Host.foreign (0, 0, 640, 480))).
    reflexivity.
Defined.

(** The studio device takes a rectangle for VIDEO_CAPTURE and refuses one
    for VIDEO_OUTPUT. *)
Lemma cropping_rectangle_set_outcomes_witness :
  fst (cropping_rectangle_set Host.foreign Host.studio (0, 0, 320, 240)
         (Host.grabber0, world0)) = Ok tt
  /\ fst (cropping_rectangle_set Host.foreign Host.studio (0, 0, 320, 240)
            (with_buffer_type Host.grabber0 (PyInt 2), world0))
     = Raise (FeatureNotSupported "Cropping is not supported").
Proof.
  split.
  - apply (proj1 (proj2 (cropping_rectangle_set_outcomes Host.foreign Host.studio
                           (0, 0, 320, 240) Host.grabber0 world0))).
    reflexivity.
  - apply (proj1 (proj2 (proj2 (cropping_rectangle_set_outcomes
                                  Host.foreign Host.studio (0, 0, 320, 240)
                                  (with_buffer_type Host.grabber0 (PyInt 2)) world0)))
             (Host.IoctlError Host.ENOTTY "Inappropriate ioctl for device"));
      reflexivity.
Defined.

(** The webcam reports KERNEL_VERSION(5, 15, 0). *)
Lemma version_tuple_at_construction_witness :
  exists caps,
    k_query_cap Host.webcam (_device Host.video0) = Ok caps
    /\ (let '(major, minor, patch) := _version Host.video0 in
        0 <= major < 256 /\ 0 <= minor < 256 /\ 0 <= patch < 256
        /\ KERNEL_VERSION major minor patch = version caps mod 2 ^ 24)
    /\ (forall a b c, 0 <= a < 256 -> 0 <= b < 256 -> 0 <= c < 256 ->
                      version caps = KERNEL_VERSION a b c ->
                      fst (version_tuple Host.foreign (Host.video0, Host.world1))
                      = Ok (a, b, c)).
Proof.
  apply (version_tuple_at_construction Host.foreign Host.webcam (DevInt 0) world0
           Host.video0 Host.world1).
  reflexivity.
Defined.

(** [/dev/video1] does not open on the webcam host. *)
Lemma construction_raises_transport_error_witness :
  V4l2Device_init Host.foreign Host.webcam (DevInt 1) world0
  = (Raise (Host.OSError 2 "No such file or directory"),
     issued world0 [ReqOpen "/dev/video1"]).
Proof.
  apply (proj1 (construction_raises_transport_error Host.foreign Host.webcam
                  (DevInt 1) world0 (Host.OSError 2 "No such file or directory"))).
  reflexivity.
Defined.

(** The facade of the webcam, constructed from the integer 0. *)
Lemma identity_at_construction_witness :
  _device Host.video0 = "/dev/video0"
  /\ ioc_device (_ioc_ops Host.video0) = _device Host.video0.
Proof.
  destruct (identity_at_construction Host.foreign Host.webcam (DevInt 0) world0
              Host.video0 Host.world1 eq_refl) as (Hdev & Hioc & _).
  split; [exact Hdev | exact Hioc].
Defined.

(** The grabber supports VIDEO_CAPTURE and VIDEO_OUTPUT. *)
Lemma supported_list_at_construction_witness :
  List.NoDup (_supported_buffer_types Host.grabber0)
  /\ sublist (_supported_buffer_types Host.grabber0) V4l2BufferType_members.
Proof.
  destruct (supported_list_at_construction Host.foreign Host.legacy (DevInt 0)
              world0 Host.grabber0
              (snd (V4l2Device_init Host.foreign Host.legacy (DevInt 0) world0))
              eq_refl) as (Hnodup & Hsub & _).
  split; [exact Hnodup | exact Hsub].
Defined.

(** VIDEO_OUTPUT is selected on the grabber as the integer 2 and three
    formats are pulled. *)
Lemma formats_follow_selection_witness :
  exists k,
    (k <= 3)%nat
    /\ snd ((buffer_type_set Host.foreign (PyInt 2) ;;;
             formats_take Host.foreign Host.legacy 3) (Host.grabber0, world0))
       = (with_buffer_type Host.grabber0 (PyInt 2),
          issued world0
            (requests_from (fun i => ReqEnumFmt "/dev/video0" i (PyInt 2)) 0 k)).
Proof.
  apply (formats_follow_selection Host.foreign Host.legacy (PyInt 2)
           Host.grabber0 world0 3).
  reflexivity.
Defined.

(** Two formats are pulled from the webcam: two requests, and the generator
    is left at index 2. *)
Lemma enumeration_is_lazy_witness :
  take_items Host.foreign
    (iter_buffer_formats_next Host.foreign Host.webcam Host.video0
       (PyBufferType VIDEO_CAPTURE)) 2 (Running 0) world0
  = (Ok ([Host.yuyv;
          {| fmt_ioc_ops := {| ioc_device := "/dev/video0" |};
             _fmt_desc := {| pixelformat := 0x5659555A; description := "YUYV";
                             flags := 0 |} |}], Running 2),
     issued world0
       [ReqEnumFmt "/dev/video0" 0 (PyBufferType VIDEO_CAPTURE);
        ReqEnumFmt "/dev/video0" 1 (PyBufferType VIDEO_CAPTURE)]).
Proof.
  apply (proj1 (enumeration_is_lazy Host.foreign Host.webcam)
           Host.video0 (PyBufferType VIDEO_CAPTURE)
           [{| pixelformat := 0x56595559; description := "YUYV"; flags := 0 |};
            {| pixelformat := 0x5659555A; description := "YUYV"; flags := 0 |}]
           world0).
  - cbn [length]. lia.
  - intros [|[|i]] d Hd; inversion Hd; reflexivity.
Defined.

(** A walk over the formats of the webcam at the index limit. *)
Lemma enumeration_stays_ended_witness :
  take_items Host.foreign
    (iter_buffer_formats_next Host.foreign Host.webcam Host.video0
       (PyBufferType VIDEO_CAPTURE)) 1 (Running (2 ^ 32)) world0
  = (Ok ([], Finished), world0).
Proof.
  apply (proj1 (proj2 (enumeration_stays_ended Host.foreign Host.webcam))
           Host.video0 (PyBufferType VIDEO_CAPTURE) 0%nat (2 ^ 32) world0).
  lia.
Defined.

(** Discovery on the webcam host yields the facade of [/dev/video0]. *)
Lemma discovery_yields_candidates_in_order_witness :
  exists kept,
    candidate_devices Host.dev_dir true = Ok kept
    /\ sublist (map _device [Host.video0]) kept
    /\ sublist kept (collect_devices Host.dev_dir)
    /\ Forall selection_supported [Host.video0]
    /\ Forall (fun d => ioc_device (_ioc_ops d) = _device d) [Host.video0]
    /\ (true = true ->
        forall d, In d [Host.video0] ->
                  redundant_link Host.dev_dir (collect_devices Host.dev_dir)
                    (_device d) = false).
Proof.
  apply (discovery_yields_candidates_in_order Host.foreign Host.webcam Host.dev_dir
           true world0 [Host.video0] Host.world1).
  reflexivity.
Defined.

(** Without link-skipping [/dev/video1] is tried and skipped; a tuner in the
    place of the webcam makes discovery raise. *)
Lemma discovery_skips_only_OSError_witness :
  construct_devices Host.foreign Host.webcam ["/dev/video1"; "/dev/video0"] world0
  = construct_devices Host.foreign Host.webcam ["/dev/video0"]
      (issued world0 [ReqOpen "/dev/video1"])
  /\ construct_devices Host.foreign Host.tuner ["/dev/video0"; "/dev/video1"] world0
     = (Raise (IndexError "list index out of range"),
        mkWorld [ReqOpen "/dev/video0"; ReqQueryCap "/dev/video0"] ["[]"]).
Proof.
  split.
  - apply (proj1 (discovery_skips_only_OSError Host.foreign Host.webcam
                    "/dev/video1" ["/dev/video0"] world0
                    (Host.OSError 2 "No such file or directory")
                    (issued world0 [ReqOpen "/dev/video1"]) eq_refl)).
    reflexivity.
  - apply (proj2 (discovery_skips_only_OSError Host.foreign Host.tuner
                    "/dev/video0" ["/dev/video1"] world0
                    (IndexError "list index out of range")
                    (mkWorld [ReqOpen "/dev/video0"; ReqQueryCap "/dev/video0"] ["[]"])
                    eq_refl)).
    reflexivity.
Defined.

(** In the studio directory the link to [/dev/video0] goes, the link to
    [/dev/media0] and the radio stay. *)
Lemma link_skipping_keeps_witness :
  candidate_devices Host.studio_dir true
  = Ok ["/dev/video0"; "/dev/video2"; "/dev/radio0"]
  /\ In "/dev/video2" ["/dev/video0"; "/dev/video2"; "/dev/radio0"].
Proof.
  split; [reflexivity|].
  apply (proj2 (link_skipping_keeps Host.studio_dir
                  ["/dev/video0"; "/dev/video2"; "/dev/radio0"] eq_refl
                  "/dev/video2")).
  split; [vm_compute; right; right; left; reflexivity | right; reflexivity].
Defined.

(** Without link-skipping both paths of the webcam host are opened. *)
Lemma discovery_opens_each_candidate_once_witness :
  opened (calls (snd (V4l2DeviceIterator_iter Host.foreign Host.webcam Host.dev_dir
                        false world0)))
  = ["/dev/video0"; "/dev/video1"].
Proof.
  apply (discovery_opens_each_candidate_once Host.foreign Host.webcam Host.dev_dir
           false world0 [Host.video0]
           (snd (V4l2DeviceIterator_iter Host.foreign Host.webcam Host.dev_dir
                   false world0))
           ["/dev/video0"; "/dev/video1"]);
    reflexivity.
Defined.
